(** * spgram: the spectral periodogram of liquid-dsp (src/fft/src/spgram.c)

    A shallow embedding of the estimator object: construction and its
    validation, reset, the push loop with its stride counter, the
    accumulation of transform magnitudes, and the shifted dB output.

    Conventions of the embedding.
    - [unsigned int] is a [Z] in [0, 2^32); every C operation that can leave
      that range is followed by [uint], the reduction modulo 2^32.
    - [float] is IEEE-754 binary32, given by the standard library's
      [spec_float] at precision 24 and exponent bound 128, with
      round-to-nearest-even; [float complex] is a pair of such values.
      Each arithmetic operator of the C text is one correctly rounded
      operation.
    - What the file calls but does not define is gathered in the class
      [Platform]: the window buffer [windowcf], the transform engine
      behind [FFT_EXECUTE], [hamming], the libm functions [cabsf] and
      [log10f], the complex product, and the content of freshly allocated
      memory. Every definition and theorem is generic in it.
    - The transform engine reads its input array and writes its output
      array; the number of its executions is kept in the plan, so that
      transforms can be counted. *)

From Stdlib Require Import ZArith Lia Bool String.
From Stdlib Require Import Floats.SpecFloat.
From stdpp Require Import base list.

#[local] Open Scope Z_scope.

(** ** Machine integers *)

Definition UINT_BITS : Z := 32.
Definition UINT_MODULUS : Z := 2 ^ UINT_BITS.

(** Reduction of an integer result to [unsigned int]. *)
Definition uint (z : Z) : Z := z mod UINT_MODULUS.

(** The values an [unsigned int] variable can hold. *)
Definition is_uint (z : Z) : Prop := 0 <= z < UINT_MODULUS.

(** ** binary32 arithmetic *)

Definition float : Type := spec_float.

Definition FLT_PREC : Z := 24.
Definition FLT_EMAX : Z := 128.

Definition fadd : float -> float -> float := SFadd FLT_PREC FLT_EMAX.
Definition fsub : float -> float -> float := SFsub FLT_PREC FLT_EMAX.
Definition fmul : float -> float -> float := SFmul FLT_PREC FLT_EMAX.
Definition fdiv : float -> float -> float := SFdiv FLT_PREC FLT_EMAX.
Definition fleb : float -> float -> bool := SFleb.
Definition fltb : float -> float -> bool := SFltb.
Definition fabsf : float -> float := SFabs.

(** Conversion of an integer to [float], as in [(float)(q->M)] and in the
    promotion of the literal [20]. *)
Definition float_of_int (z : Z) : float :=
  binary_normalize FLT_PREC FLT_EMAX z 0 false.

(** The literals [0.0f] and [1.0f]. *)
Definition f_zero : float := S754_zero false.
Definition f_one : float := S754_finite false 8388608 (-23).

(** A value of the format: the mantissa is canonical for its exponent. *)
Definition is_binary32 (f : float) : Prop :=
  valid_binary FLT_PREC FLT_EMAX f = true.

(** A non-negative real number: a zero or a positive finite value. *)
Definition nonneg_real (f : float) : Prop :=
  match f with
  | S754_zero _ | S754_finite false _ _ => True
  | _ => False
  end.

(** NaN, or a value whose sign bit is clear: [+0], a positive finite
    value or [+inf]. *)
Definition nan_or_nonneg (f : float) : Prop :=
  match f with
  | S754_nan | S754_zero false | S754_infinity false
  | S754_finite false _ _ => True
  | _ => False
  end.

Definition cfloat : Type := (float * float)%type.

(** A real [float] stored into a [float complex] object. *)
Definition cfloat_of_float (f : float) : cfloat := (f, f_zero).

(** ** Arrays *)

(** [a[i]] for reading; outside the array the C program has no defined
    value, and the embedding yields [d]. *)
Definition aget {A : Type} (d : A) (a : list A) (i : nat) : A :=
  default d (a !! i).

Definition f_nan : float := S754_nan.
Definition c_nan : cfloat := (S754_nan, S754_nan).

(** [for (i = 0; i < n; i++) s = body i s]. *)
Definition for_loop {S : Type} (n : nat) (body : nat -> S -> S) (s : S) : S :=
  fold_left (fun acc i => body i acc) (seq 0 n) s.

(** ** What the file calls and does not define *)

Class Platform : Type := {
  (** the sliding window buffer of complex samples *)
  windowcf : Type;
  windowcf_create : Z -> windowcf;
  windowcf_clear : windowcf -> windowcf;
  windowcf_push : windowcf -> cfloat -> windowcf;
  (** [windowcf_read b k] is [rc[k]] after [windowcf_read(b, &rc)] *)
  windowcf_read : windowcf -> nat -> cfloat;
  (** [fft_forward n a j] is what the forward plan of size [n] writes to
      output bin [j] when its input array holds [a] *)
  fft_forward : Z -> list cfloat -> nat -> cfloat;
  (** [hamming(i, n)] *)
  hamming : Z -> Z -> float;
  (** product of two [float complex] values *)
  cmulf : cfloat -> cfloat -> cfloat;
  cabsf : cfloat -> float;
  log10f : float -> float;
  (** content of memory returned by [malloc], per element *)
  uninit_cfloat : nat -> cfloat;
  uninit_float : nat -> float
}.

(** The array a [malloc] of [n] elements returns. *)
Definition malloc {A : Type} (junk : nat -> A) (n : Z) : list A :=
  map junk (seq 0 (Z.to_nat n)).

(** The plan of the transform engine: its size and, as the trace of the
    calls made on it, how many times it has been executed. *)
Record FFT_PLAN : Type := {
  plan_nfft : Z;
  plan_runs : nat
}.

Definition FFT_CREATE_PLAN (n : Z) : FFT_PLAN :=
  {| plan_nfft := n; plan_runs := 0 |}.

(** Result of a call that may end the process with [exit]. *)
Inductive outcome (A : Type) : Type :=
| Returned (a : A)
| Exited (status : Z) (message : string).
Arguments Returned {A} a.
Arguments Exited {A} status message.

Section Spgram.
Context `{P : Platform}.

(** ** struct spgram_s *)

Record spgram : Type := {
  nfft : Z;
  M : Z;
  delay : Z;
  alpha : float;
  buffer : windowcf;
  x : list cfloat;
  X : list cfloat;
  w : list cfloat;
  psd : list float;
  p : FFT_PLAN;
  num_windows : Z;
  index : Z
}.

Definition set_buffer (q : spgram) (b : windowcf) : spgram :=
  {| nfft := nfft q; M := M q; delay := delay q; alpha := alpha q;
     buffer := b; x := x q; X := X q; w := w q; psd := psd q; p := p q;
     num_windows := num_windows q; index := index q |}.

Definition set_x (q : spgram) (a : list cfloat) : spgram :=
  {| nfft := nfft q; M := M q; delay := delay q; alpha := alpha q;
     buffer := buffer q; x := a; X := X q; w := w q; psd := psd q; p := p q;
     num_windows := num_windows q; index := index q |}.

Definition set_psd (q : spgram) (a : list float) : spgram :=
  {| nfft := nfft q; M := M q; delay := delay q; alpha := alpha q;
     buffer := buffer q; x := x q; X := X q; w := w q; psd := a; p := p q;
     num_windows := num_windows q; index := index q |}.

Definition set_num_windows (q : spgram) (n : Z) : spgram :=
  {| nfft := nfft q; M := M q; delay := delay q; alpha := alpha q;
     buffer := buffer q; x := x q; X := X q; w := w q; psd := psd q;
     p := p q; num_windows := n; index := index q |}.

Definition set_index (q : spgram) (n : Z) : spgram :=
  {| nfft := nfft q; M := M q; delay := delay q; alpha := alpha q;
     buffer := buffer q; x := x q; X := X q; w := w q; psd := psd q;
     p := p q; num_windows := num_windows q; index := n |}.

(** [FFT_EXECUTE(q->p)]: the plan reads [q->x] and fills [q->X]. *)
Definition FFT_EXECUTE (q : spgram) : spgram :=
  {| nfft := nfft q; M := M q; delay := delay q; alpha := alpha q;
     buffer := buffer q; x := x q;
     X := map (fft_forward (plan_nfft (p q)) (x q))
              (seq 0 (Z.to_nat (plan_nfft (p q))));
     w := w q; psd := psd q;
     p := {| plan_nfft := plan_nfft (p q); plan_runs := S (plan_runs (p q)) |};
     num_windows := num_windows q; index := index q |}.

(** ** spgram_reset *)

Definition spgram_reset (q : spgram) : spgram :=
  let q := set_buffer q (windowcf_clear (buffer q)) in
  let q := set_num_windows q 0 in
  set_index q 0.

(** ** spgram_create_advanced and spgram_create *)

Definition spgram_create_advanced (_nfft _m _delay : Z) (_alpha : float)
  : outcome spgram :=
  if _nfft <? 2 then
    Exited 1 "error: spgram_create_advanced(), fft size must be at least 2"
  else if _m >? _nfft then
    Exited 1 "error: spgram_create_advanced(), window size cannot exceed fft size"
  else if _delay =? 0 then
    Exited 1 "error: spgram_create_advanced(), delay must be greater than zero"
  else if fleb _alpha f_zero || fltb f_one _alpha then
    Exited 1 "error: spgram_create_advanced(), alpha must be in (0,1]"
  else
    let x0 := malloc uninit_cfloat _nfft in
    let X0 := malloc uninit_cfloat _nfft in
    let w0 := malloc uninit_cfloat _m in
    let psd0 := malloc uninit_float _nfft in
    (* initialize tapering window, scaled by window length size *)
    let w1 :=
      for_loop (Z.to_nat _m)
        (fun i a =>
           <[i := cfloat_of_float
                    (fdiv (hamming (Z.of_nat i) _m) (float_of_int _m))]> a)
        w0 in
    (* clear FFT input *)
    let x1 :=
      for_loop (Z.to_nat _nfft)
        (fun i a => <[i := cfloat_of_float f_zero]> a) x0 in
    Returned
      (spgram_reset
         {| nfft := _nfft; M := _m; delay := _delay; alpha := _alpha;
            buffer := windowcf_create _m;
            x := x1; X := X0; w := w1; psd := psd0;
            p := FFT_CREATE_PLAN _nfft;
            num_windows := 0; index := 0 |}).

Definition spgram_create (_nfft : Z) (_alpha : float) : outcome spgram :=
  let _m := _nfft / 4 in
  let _delay := _nfft / 8 in
  spgram_create_advanced _nfft _m _delay _alpha.

(** ** spgram_push *)

(** [(1.0f - alpha) * old + alpha * mag], the one-pole average of one
    bin. *)
Definition blend (a : float) (old mag : float) : float :=
  fadd (fmul (fsub f_one a) old) (fmul a mag).

(** The body of [if (_q->index == _q->delay)]. *)
Definition spgram_transform (q : spgram) : spgram :=
  (* reset counter *)
  let q := set_index q 0 in
  (* read buffer, copy to FFT input (applying window) *)
  let rc := windowcf_read (buffer q) in
  let q :=
    set_x q
      (for_loop (Z.to_nat (M q))
         (fun k a => <[k := cmulf (rc k) (aget c_nan (w q) k)]> a) (x q)) in
  (* execute fft *)
  let q := FFT_EXECUTE q in
  (* accumulate output *)
  let q :=
    if num_windows q =? 0 then
      set_psd q
        (for_loop (Z.to_nat (nfft q))
           (fun j a => <[j := cabsf (aget c_nan (X q) j)]> a) (psd q))
    else
      set_psd q
        (for_loop (Z.to_nat (nfft q))
           (fun j a =>
              <[j := blend (alpha q) (aget f_nan a j)
                       (cabsf (aget c_nan (X q) j))]> a) (psd q)) in
  set_num_windows q (uint (num_windows q + 1)).

(** One iteration of the loop over the input samples. *)
Definition spgram_push_sample (q : spgram) (c : cfloat) : spgram :=
  let q := set_buffer q (windowcf_push (buffer q) c) in
  let q := set_index q (uint (index q + 1)) in
  if index q =? delay q then spgram_transform q else q.

(** [spgram_push(_q, _x, _n)], the list holding [_x[0 .. _n-1]]. *)
Definition spgram_push (q : spgram) (_x : list cfloat) : spgram :=
  fold_left spgram_push_sample _x q.

(** ** spgram_execute *)

(** The source bin of output position [i]: [(i + nfft_2) % nfft], the sum
    being an [unsigned int]. *)
Definition shift_index (n : Z) (i : Z) : Z :=
  let nfft_2 := n / 2 in
  uint (i + nfft_2) mod n.

(** [spgram_execute(_q, _X)] returns the object and the output array. *)
Definition spgram_execute (q : spgram) (_X : list float)
  : spgram * list float :=
  if num_windows q =? 0 then
    (* copy zeros to output *)
    (q, for_loop (Z.to_nat (nfft q)) (fun i a => <[i := f_zero]> a) _X)
  else
    (* copy shifted PSD contents to output *)
    (q, for_loop (Z.to_nat (nfft q))
          (fun i a =>
             let k := shift_index (nfft q) (Z.of_nat i) in
             <[i := fmul (float_of_int 20)
                      (log10f (fabsf (aget f_nan (psd q) (Z.to_nat k))))]> a)
          _X).

(** ** Sequences of calls on one object *)

Inductive operation : Type :=
| op_push (_x : list cfloat)
| op_reset
| op_execute (_X : list float).

Definition apply_operation (q : spgram) (o : operation) : spgram :=
  match o with
  | op_push _x => spgram_push q _x
  | op_reset => spgram_reset q
  | op_execute _X => fst (spgram_execute q _X)
  end.

Definition run (q : spgram) (ops : list operation) : spgram :=
  fold_left apply_operation ops q.

(** Positions [M, nfft) of the transform input hold zero. *)
Definition padding_is_zero (q : spgram) : Prop :=
  forall k : nat,
    (Z.to_nat (M q) <= k < Z.to_nat (nfft q))%nat ->
    x q !! k = Some (cfloat_of_float f_zero).

(** What every object built by the constructor satisfies, whatever is
    called on it afterwards. *)
Record consistent (q : spgram) : Prop := {
  cons_nfft : 2 <= nfft q;
  cons_M : 0 <= M q <= nfft q;
  cons_delay : 1 <= delay q < UINT_MODULUS;
  cons_index : 0 <= index q < delay q;
  cons_windows : is_uint (num_windows q);
  cons_plan : plan_nfft (p q) = nfft q;
  cons_x : length (x q) = Z.to_nat (nfft q);
  cons_X : length (X q) = Z.to_nat (nfft q);
  cons_w : length (w q) = Z.to_nat (M q);
  cons_psd : length (psd q) = Z.to_nat (nfft q);
  cons_padding : padding_is_zero q
}.

(** ** Notions used in the statements *)

(** The dB value written for one bin. *)
Definition decibels (v : float) : float :=
  fmul (float_of_int 20) (log10f (fabsf v)).

(** The transform input after the window has been applied. *)
Definition windowed_input (q : spgram) : list cfloat :=
  for_loop (Z.to_nat (M q))
    (fun k a =>
       <[k := cmulf (windowcf_read (buffer q) k) (aget c_nan (w q) k)]> a)
    (x q).

(** The transform output for that input. *)
Definition transform_output (q : spgram) : list cfloat :=
  map (fft_forward (plan_nfft (p q)) (windowed_input q))
      (seq 0 (Z.to_nat (plan_nfft (p q)))).

(** The magnitude of output bin [j]. *)
Definition magnitude (q : spgram) (j : nat) : float :=
  cabsf (aget c_nan (transform_output q) j).

(** The object once a sample is in the buffer and counted, before the
    test [index == delay]. *)
Definition arrive (q : spgram) (c : cfloat) : spgram :=
  set_index (set_buffer q (windowcf_push (buffer q) c)) (uint (index q + 1)).

(** [q] was returned by the constructor, called with [unsigned int]
    arguments, and has since received any sequence of calls. *)
Definition constructed (q : spgram) : Prop :=
  exists (_nfft _m _delay : Z) (_alpha : float) (q0 : spgram)
         (ops : list operation),
    is_uint _nfft /\ is_uint _m /\ is_uint _delay /\
    spgram_create_advanced _nfft _m _delay _alpha = Returned q0 /\
    q = run q0 ops.

(** The configuration, the window and the plan size never change. *)
Definition same_setup (q1 q2 : spgram) : Prop :=
  nfft q1 = nfft q2 /\ M q1 = M q2 /\ delay q1 = delay q2 /\
  alpha q1 = alpha q2 /\ w q1 = w q2 /\
  plan_nfft (p q1) = plan_nfft (p q2).

(** The object just before the transform of the first full stride. *)
Definition stride_filled (q : spgram) (xs : list cfloat) : spgram :=
  set_index (set_buffer q (fold_left windowcf_push xs (buffer q)))
    (delay q).

(** Once a transform has run, no PSD cell holds a negative value; and a
    non-zero transform count means that a transform has run. *)
Definition psd_sound (q : spgram) : Prop :=
  (num_windows q <> 0 -> plan_runs (p q) <> 0%nat) /\
  (plan_runs (p q) <> 0%nat ->
   forall (k : nat) (v : float), psd q !! k = Some v -> nan_or_nonneg v).

End Spgram.

(** The four conditions under which [spgram_create_advanced] gives up. *)
Definition rejected (_nfft _m _delay : Z) (_alpha : float) : Prop :=
  _nfft < 2 \/ _m > _nfft \/ _delay = 0 \/
  (fleb _alpha f_zero = true \/ fltb f_one _alpha = true).

(** The configuration error: the process ends with status 1 after a
    message on [stderr], and no object is returned. *)
Definition ConfigurationError {A : Type} (r : outcome A) : Prop :=
  exists message, r = Exited 1 message.

Definition succeeds {A : Type} (r : outcome A) : Prop :=
  exists a, r = Returned a.

(** What the constructor lets through as averaging factor. *)
Definition alpha_accepted (a : float) : Prop :=
  fleb a f_zero = false /\ fltb f_one a = false.

(** ** A reference platform

    One concrete [Platform], on which the definitions above can be run. *)

Module Reference.

Definition c_zero : cfloat := (f_zero, f_zero).

(** Modelled from the spec: the sliding window buffer ([windowcf], not in
    spgram.c). It holds [capacity] samples in chronological order, a push
    discards the oldest one, a snapshot returns all of them, and clearing
    leaves no pushed sample behind (every slot is zero again). *)
Definition wbuf : Type := list cfloat.
Definition wbuf_create (n : Z) : wbuf := replicate (Z.to_nat n) c_zero.
Definition wbuf_clear (b : wbuf) : wbuf := replicate (length b) c_zero.
Definition wbuf_push (b : wbuf) (c : cfloat) : wbuf :=
  match b with
  | [] => []
  | _ :: rest => rest ++ [c]
  end.
Definition wbuf_read (b : wbuf) (k : nat) : cfloat := aget c_nan b k.

Definition cadd (a b : cfloat) : cfloat :=
  (fadd (fst a) (fst b), fadd (snd a) (snd b)).
Definition csub (a b : cfloat) : cfloat :=
  (fsub (fst a) (fst b), fsub (snd a) (snd b)).
(** Multiplication by the imaginary unit. *)
Definition cmul_i (a : cfloat) : cfloat := (SFopp (snd a), fst a).

(** Modelled from the spec: the forward transform engine (behind
    [FFT_EXECUTE], not in spgram.c), here for the sizes whose twiddle
    factors are 1, -1, i and -i; no other size is run below. *)
Definition dft (n : Z) (a : list cfloat) (j : nat) : cfloat :=
  let a0 := aget c_nan a 0 in
  let a1 := aget c_nan a 1 in
  let a2 := aget c_nan a 2 in
  let a3 := aget c_nan a 3 in
  match n, j with
  | 1, O => a0
  | 2, O => cadd a0 a1
  | 2, S O => csub a0 a1
  | 4, O => cadd (cadd a0 a2) (cadd a1 a3)
  | 4, S O => csub (csub a0 a2) (cmul_i (csub a1 a3))
  | 4, S (S O) => csub (cadd a0 a2) (cadd a1 a3)
  | 4, S (S (S O)) => cadd (csub a0 a2) (cmul_i (csub a1 a3))
  | _, _ => c_nan
  end.

(** The Hamming window at its end points, where the cosine is 1, and at
    its centre, where it is -1; 0.53836 elsewhere. *)
Definition hamming_model (i n : Z) : float :=
  if (i =? 0) || (i =? n - 1) then
    fdiv (float_of_int 7672) (float_of_int 100000)
  else if 2 * i =? n - 1 then f_one
  else fdiv (float_of_int 53836) (float_of_int 100000).

(** The product by the textbook formula. *)
Definition cmulf_model (a b : cfloat) : cfloat :=
  (fsub (fmul (fst a) (fst b)) (fmul (snd a) (snd b)),
   fadd (fmul (fst a) (snd b)) (fmul (snd a) (fst b))).

(** The magnitude as the rounded square root of the sum of squares. *)
Definition cabsf_model (a : cfloat) : float :=
  SFsqrt FLT_PREC FLT_EMAX
    (fadd (fmul (fst a) (fst a)) (fmul (snd a) (snd a))).

(** A coarse logarithm: the binary exponent scaled by log10(2); exact at
    1 and in the special cases. *)
Definition log10f_model (f : float) : float :=
  match f with
  | S754_nan => S754_nan
  | S754_zero _ => S754_infinity true
  | S754_infinity false => S754_infinity false
  | S754_infinity true => S754_nan
  | S754_finite true _ _ => S754_nan
  | S754_finite false m e =>
      fmul (float_of_int (Z.log2 (Zpos m) + e))
           (fdiv (float_of_int 30103) (float_of_int 100000))
  end.

#[export] Instance platform : Platform := {|
  windowcf := wbuf;
  windowcf_create := wbuf_create;
  windowcf_clear := wbuf_clear;
  windowcf_push := wbuf_push;
  windowcf_read := wbuf_read;
  fft_forward := dft;
  hamming := hamming_model;
  cmulf := cmulf_model;
  cabsf := cabsf_model;
  log10f := log10f_model;
  uninit_cfloat := fun i => (float_of_int (- Z.of_nat i - 1), f_one);
  uninit_float := fun i => float_of_int (- Z.of_nat i - 1)
|}.

(** 0.5, a quiet NaN sample and an ordinary sample. *)
Definition half : float := S754_finite false 8388608 (-24).
Definition nan_sample : cfloat := (S754_nan, f_zero).
Definition unit_sample : cfloat := (f_one, f_zero).

(** The PSD and the number of transforms after one sample has been pushed
    onto the fresh object with [N = 4], [M = 2], [D = 1], [alpha = 0.5]. *)
Definition first_stride (c : cfloat) : list float * nat :=
  match spgram_create_advanced (P := platform) 4 2 1 half with
  | Returned q0 =>
      let q := spgram_push q0 [c] in (psd q, plan_runs (p q))
  | Exited _ _ => ([], 0%nat)
  end.

(** With the averaging factor 1 on the same sizes: PSD cell 0 after one
    sample, then cell 0 of the transform output and of the PSD after a
    second sample, with the counters in between. *)
Definition second_stride_alpha_one
  : option float * option cfloat * option float * Z * Z :=
  match spgram_create_advanced (P := platform) 4 2 1 f_one with
  | Returned q0 =>
      let q := spgram_push q0 [unit_sample] in
      let q' := spgram_push_sample q (f_one, f_one) in
      (psd q !! 0%nat, X q' !! 0%nat, psd q' !! 0%nat,
       num_windows q, index q)
  | Exited _ _ => (None, None, None, 0, 0)
  end.

End Reference.

(** ** Loops that fill an array *)

Section Loops.
Context {A : Type}.

Lemma for_loop_S {S : Type} (n : nat) (body : nat -> S -> S) (s : S) :
  for_loop (Datatypes.S n) body s = body n (for_loop n body s).
Proof.
  unfold for_loop. rewrite seq_S, fold_left_app. reflexivity.
Qed.

(** A loop whose iteration [i] overwrites [a[i]] with a value computed from
    [i] and the old [a[i]] changes exactly the first [n] cells. *)
Lemma for_loop_update_lookup (d : A) (g : nat -> A -> A) (n : nat)
    (l : list A) (j : nat) :
  for_loop n (fun i a => <[i := g i (aget d a i)]> a) l !! j
  = if decide (j < n)%nat then g j <$> (l !! j) else l !! j.
Proof.
  induction n as [|n IH] in j |- *.
  - reflexivity.
  - rewrite for_loop_S.
    set (r := for_loop n _ l) in *.
    assert (Hn : r !! n = l !! n).
    { rewrite IH. destruct (decide (n < n)%nat); [lia | reflexivity]. }
    destruct (decide (j = n)) as [->|Hne].
    + destruct (decide (n < Datatypes.S n)%nat); [|lia].
      unfold aget. rewrite Hn.
      destruct (l !! n) as [v|] eqn:Hl.
      * rewrite list_lookup_insert_eq; [reflexivity|].
        apply lookup_lt_is_Some. rewrite Hn. eauto.
      * rewrite list_insert_ge; [exact Hn|].
        apply lookup_ge_None. exact Hn.
    + rewrite list_lookup_insert_ne by congruence.
      rewrite IH.
      destruct (decide (j < n)%nat), (decide (j < Datatypes.S n)%nat);
        try reflexivity; lia.
Qed.

Lemma for_loop_fill_lookup (f : nat -> A) (n : nat) (l : list A) (j : nat) :
  for_loop n (fun i a => <[i := f i]> a) l !! j
  = if decide (j < n)%nat then (fun _ => f j) <$> (l !! j) else l !! j.
Proof.
  pose proof (for_loop_update_lookup (f 0%nat) (fun i _ => f i) n l j) as H.
  cbn beta in H. exact H.
Qed.

Lemma for_loop_update_length (g : nat -> list A -> A) (n : nat) (l : list A) :
  length (for_loop n (fun i a => <[i := g i a]> a) l) = length l.
Proof.
  induction n as [|n IH]; [reflexivity|].
  rewrite for_loop_S, length_insert. exact IH.
Qed.

Lemma malloc_length (junk : nat -> A) (n : Z) :
  length (malloc junk n) = Z.to_nat n.
Proof. unfold malloc. rewrite length_map, length_seq. reflexivity. Qed.

End Loops.

(** ** Construction and its validation *)

Section Construction.
Context `{P : Platform}.

Lemma create_advanced_cases (_nfft _m _delay : Z) (_alpha : float) :
  (rejected _nfft _m _delay _alpha /\
   ConfigurationError (spgram_create_advanced _nfft _m _delay _alpha)) \/
  (~ rejected _nfft _m _delay _alpha /\
   succeeds (spgram_create_advanced _nfft _m _delay _alpha)).
Proof.
  unfold rejected, spgram_create_advanced, ConfigurationError, succeeds.
  destruct (Z.ltb_spec _nfft 2) as [H1|H1]; [left; split; eauto|].
  destruct (Z.gtb_spec _m _nfft) as [H2|H2]; [left; split; eauto; lia|].
  destruct (Z.eqb_spec _delay 0) as [H3|H3]; [left; split; eauto|].
  destruct (fleb _alpha f_zero) eqn:H4; [left; split; eauto 6|].
  destruct (fltb f_one _alpha) eqn:H5; [left; split; eauto 6|].
  right. split; [|eauto]. intros [?|[?|[?|[?|?]]]]; try lia; discriminate.
Qed.

Lemma create_advanced_returned (_nfft _m _delay : Z) (_alpha : float)
    (q : spgram) :
  spgram_create_advanced _nfft _m _delay _alpha = Returned q ->
  ~ rejected _nfft _m _delay _alpha /\
  nfft q = _nfft /\ M q = _m /\ delay q = _delay /\ alpha q = _alpha /\
  num_windows q = 0 /\ index q = 0 /\ plan_runs (p q) = 0%nat.
Proof.
  intros Hq.
  destruct (create_advanced_cases _nfft _m _delay _alpha)
    as [[_ [msg Hm]]|[Hn _]]; [congruence|].
  split; [exact Hn|].
  unfold spgram_create_advanced in Hq.
  destruct (_nfft <? 2); [discriminate|].
  destruct (_m >? _nfft); [discriminate|].
  destruct (_delay =? 0); [discriminate|].
  destruct (fleb _alpha f_zero || fltb f_one _alpha); [discriminate|].
  injection Hq as <-. repeat split.
Qed.

(** C4. Construction ends in the configuration error, returning no
    object, exactly when the transform size is below 2, the window is
    longer than the transform, the stride is 0, or the averaging factor
    compares [<= 0] or [> 1]; in every other case it returns an object.
    The simple constructor is the advanced one at [N/4] and [N/8]. *)
Theorem C4_configuration_error_iff :
  forall (_nfft _m _delay : Z) (_alpha : float),
    (ConfigurationError (spgram_create_advanced _nfft _m _delay _alpha) <->
     rejected _nfft _m _delay _alpha) /\
    (succeeds (spgram_create_advanced _nfft _m _delay _alpha) <->
     ~ rejected _nfft _m _delay _alpha) /\
    spgram_create _nfft _alpha
    = spgram_create_advanced _nfft (_nfft / 4) (_nfft / 8) _alpha.
Proof.
  intros _nfft _m _delay _alpha.
  destruct (create_advanced_cases _nfft _m _delay _alpha)
    as [[Hr [msg Hm]]|[Hn [q Hq]]].
  - repeat split; try tauto.
    + intros _. exists msg. exact Hm.
    + intros [q Hq]. congruence.
  - repeat split; try tauto.
    + intros [msg Hm]. congruence.
    + intros _. exists q. exact Hq.
Qed.

(** C7, as amended. An object returned by the advanced constructor has
    [0 <= M <= N], the window length 0 included; an object returned by the
    simple constructor has [1 <= M <= N]. *)
Theorem C7_window_length_bounds :
  forall (_nfft _m _delay : Z) (_alpha : float) (q : spgram),
    is_uint _nfft -> is_uint _m ->
    (spgram_create_advanced _nfft _m _delay _alpha = Returned q ->
     0 <= M q <= nfft q) /\
    (spgram_create _nfft _alpha = Returned q ->
     1 <= M q <= nfft q).
Proof.
  intros _nfft _m _delay _alpha q Hn Hm. unfold is_uint in *. split.
  - intros Hq. apply create_advanced_returned in Hq.
    destruct Hq as (Hr & -> & -> & _). unfold rejected in Hr. lia.
  - unfold spgram_create. intros Hq. apply create_advanced_returned in Hq.
    destruct Hq as (Hr & -> & -> & _). unfold rejected in Hr.
    assert (_nfft / 8 <> 0) by tauto.
    assert (8 <= _nfft).
    { destruct (Z_lt_le_dec _nfft 8) as [Hlt|]; [|assumption].
      rewrite Z.div_small in *; lia. }
    pose proof (Z.div_le_lower_bound _nfft 4 2). 
    pose proof (Z.div_le_upper_bound _nfft 4 _nfft). lia.
Qed.

End Construction.

(** C7 as stated fails: the advanced constructor returns an object for
    [N = 2], [M = 0], [D = 1], [alpha = 0.5]. *)
Lemma C7_window_length_zero_accepted :
  ~ (forall (P : Platform) (_nfft _m _delay : Z) (_alpha : float)
            (q : spgram),
        is_uint _nfft -> is_uint _m -> is_uint _delay ->
        spgram_create_advanced _nfft _m _delay _alpha = Returned q ->
        1 <= M q <= nfft q).
Proof.
  intros H.
  destruct (create_advanced_cases (P := Reference.platform)
              2 0 1 Reference.half) as [[Hr _]|[_ [q Hq]]].
  - unfold rejected in Hr. vm_compute in Hr.
    destruct Hr as [?|[?|[?|[?|?]]]]; discriminate.
  - pose proof (create_advanced_returned _ _ _ _ _ Hq) as (_ & _ & HM & _).
    assert (Hu : forall z, 0 <= z < 3 -> is_uint z).
    { intros z Hz. unfold is_uint, UINT_MODULUS, UINT_BITS. lia. }
    specialize (H Reference.platform 2 0 1 Reference.half q
                  (Hu 2 ltac:(lia)) (Hu 0 ltac:(lia)) (Hu 1 ltac:(lia)) Hq).
    lia.
Qed.

Lemma C7_window_length_bounds_witness :
  is_uint 8 /\ is_uint 2 /\
  exists q : spgram (P := Reference.platform),
    spgram_create 8 Reference.half = Returned q /\ 1 <= M q <= nfft q.
Proof.
  assert (H8 : is_uint 8) by (unfold is_uint, UINT_MODULUS, UINT_BITS; lia).
  assert (H2 : is_uint 2) by (unfold is_uint, UINT_MODULUS, UINT_BITS; lia).
  split; [exact H8|]. split; [exact H2|].
  destruct (create_advanced_cases (P := Reference.platform)
              8 2 1 Reference.half) as [[Hr _]|[_ [q Hq]]].
  - exfalso. unfold rejected in Hr. vm_compute in Hr.
    destruct Hr as [?|[?|[?|[?|?]]]]; discriminate.
  - exists q. split; [exact Hq|].
    exact (proj2 (C7_window_length_bounds (P := Reference.platform)
                    8 2 1 Reference.half q H8 H2) Hq).
Defined.

(** ** The query *)

Section Execute.
Context `{P : Platform}.

Lemma execute_object (q : spgram) (_X : list float) :
  fst (spgram_execute q _X) = q.
Proof. unfold spgram_execute. destruct (num_windows q =? 0); reflexivity. Qed.

(** What [spgram_execute] leaves in each cell of the caller's array. *)
Lemma execute_lookup (q : spgram) (_X : list float) (i : nat) :
  snd (spgram_execute q _X) !! i
  = if decide (i < Z.to_nat (nfft q))%nat then
      (fun _ =>
         if num_windows q =? 0 then f_zero
         else decibels
                (aget f_nan (psd q)
                   (Z.to_nat (shift_index (nfft q) (Z.of_nat i)))))
      <$> (_X !! i)
    else _X !! i.
Proof.
  unfold spgram_execute, decibels.
  destruct (num_windows q =? 0); cbn [snd].
  - apply (for_loop_fill_lookup (fun _ => f_zero)).
  - apply (for_loop_fill_lookup
             (fun i =>
                fmul (float_of_int 20)
                  (log10f (fabsf (aget f_nan (psd q)
                     (Z.to_nat (shift_index (nfft q) (Z.of_nat i)))))))).
Qed.

Lemma execute_zeros (q : spgram) (_X : list float) :
  num_windows q = 0 ->
  length _X = Z.to_nat (nfft q) ->
  snd (spgram_execute q _X) = replicate (Z.to_nat (nfft q)) f_zero.
Proof.
  intros Hz Hlen. apply list_eq. intros i.
  rewrite execute_lookup, Hz. cbn [Z.eqb].
  destruct (decide (i < Z.to_nat (nfft q))%nat) as [Hi|Hi].
  - rewrite lookup_replicate_2 by exact Hi.
    destruct (lookup_lt_is_Some_2 _X i) as [v ->]; [lia|reflexivity].
  - rewrite (lookup_ge_None_2 _X) by lia.
    symmetry. apply lookup_replicate_None. lia.
Qed.

(** C10. [spgram_execute] returns the object it was given, every field
    unchanged; a second call right after the first writes the same value
    into each of the [N] output cells, and on the same array it changes
    nothing. *)
Theorem C10_execute_read_only :
  forall (q : spgram) (_X _X' : list float),
    fst (spgram_execute q _X) = q /\
    (length _X = length _X' ->
     forall i : nat,
       (i < Z.to_nat (nfft q))%nat ->
       snd (spgram_execute (fst (spgram_execute q _X)) _X') !! i
       = snd (spgram_execute q _X) !! i) /\
    snd (spgram_execute (fst (spgram_execute q _X))
           (snd (spgram_execute q _X)))
    = snd (spgram_execute q _X).
Proof.
  intros q _X _X'. rewrite execute_object. split; [reflexivity|]. split.
  - intros Hlen i Hi. rewrite !execute_lookup.
    destruct (decide (i < Z.to_nat (nfft q))%nat); [|lia].
    destruct (_X !! i) as [v|] eqn:Hv.
    + destruct (lookup_lt_is_Some_2 _X' i) as [v' ->]; [|reflexivity].
      rewrite <- Hlen. apply lookup_lt_is_Some. eauto.
    + rewrite (lookup_ge_None_2 _X'); [reflexivity|].
      rewrite <- Hlen. apply lookup_ge_None. exact Hv.
  - apply list_eq. intros i. rewrite !execute_lookup.
    destruct (decide (i < Z.to_nat (nfft q))%nat); [|reflexivity].
    destruct (_X !! i); reflexivity.
Qed.

End Execute.

(** ** The shift of the output *)

Lemma uint_small (z : Z) : is_uint z -> uint z = z.
Proof. unfold is_uint, uint. intros H. apply Z.mod_small. exact H. Qed.

(** As long as [N + N/2] fits an [unsigned int], the source bin is the
    circular shift by the floor of [N/2]. *)
Lemma shift_index_in_range (n i : Z) :
  n + n / 2 <= UINT_MODULUS -> 0 <= i < n ->
  shift_index n i = (i + n / 2) mod n.
Proof.
  intros Hn Hi. unfold shift_index. cbv zeta.
  rewrite uint_small; [reflexivity|].
  unfold is_uint. pose proof (Z.div_pos n 2). lia.
Qed.

Lemma twenty_is_exact : float_of_int 20 = S754_finite false 10485760 (-19).
Proof. reflexivity. Qed.

Section ExecuteShift.
Context `{P : Platform}.

(** For every transform size up to 2863311531 the output is the shifted
    PSD in dB, with the factor 20. *)
Lemma execute_shifted_decibels (q : spgram) (_X : list float) (i : nat) :
  num_windows q <> 0 ->
  nfft q + nfft q / 2 <= UINT_MODULUS ->
  length _X = Z.to_nat (nfft q) ->
  length (psd q) = Z.to_nat (nfft q) ->
  (i < Z.to_nat (nfft q))%nat ->
  exists v : float,
    psd q !! Z.to_nat ((Z.of_nat i + nfft q / 2) mod nfft q) = Some v /\
    snd (spgram_execute q _X) !! i
    = Some (fmul (S754_finite false 10485760 (-19)) (log10f (fabsf v))).
Proof.
  intros Hw Hn HX Hpsd Hi.
  assert (Hk : 0 <= (Z.of_nat i + nfft q / 2) mod nfft q < nfft q)
    by (apply Z.mod_pos_bound; lia).
  destruct (lookup_lt_is_Some_2 (psd q)
              (Z.to_nat ((Z.of_nat i + nfft q / 2) mod nfft q)))
    as [v Hv]; [lia|].
  exists v. split; [exact Hv|].
  rewrite execute_lookup.
  destruct (decide (i < Z.to_nat (nfft q))%nat); [|lia].
  destruct (lookup_lt_is_Some_2 _X i) as [o ->]; [lia|].
  cbn [fmap option_fmap option_map].
  destruct (Z.eqb_spec (num_windows q) 0); [contradiction|].
  rewrite shift_index_in_range by lia.
  unfold decibels, aget. rewrite Hv, twenty_is_exact. reflexivity.
Qed.

End ExecuteShift.

(** C2, at the failing input. Every output cell [i] below [N] receives
    the dB value of PSD bin [shift_index N i]. For [N = 3000000000], a size
    the constructor accepts, and [i = 2999999999] the sum [i + N/2] exceeds
    [UINT_MAX]: the bin read is 205032703, where the circular shift
    [(i + N/2) mod N] is 1499999999. *)
Theorem C2_shift_wraps_for_large_transform :
  (forall (P : Platform) (q : spgram) (_X : list float) (i : nat),
      snd (spgram_execute q _X) !! i
      = if decide (i < Z.to_nat (nfft q))%nat then
          (fun _ =>
             if num_windows q =? 0 then f_zero
             else fmul (float_of_int 20)
                    (log10f
                       (fabsf
                          (aget f_nan (psd q)
                             (Z.to_nat
                                (shift_index (nfft q) (Z.of_nat i)))))))
          <$> (_X !! i)
        else _X !! i) /\
  shift_index 3000000000 2999999999 = 205032703 /\
  (2999999999 + 3000000000 / 2) mod 3000000000 = 1499999999 /\
  2 <= 3000000000 < UINT_MODULUS.
Proof.
  split; [intros P q _X i; apply execute_lookup|].
  vm_compute. repeat split; congruence.
Qed.

(** ** The transform step *)

Section Transform.
Context `{P : Platform}.

Lemma transform_fields (q : spgram) :
  let q' := spgram_transform q in
  nfft q' = nfft q /\ M q' = M q /\ delay q' = delay q /\
  alpha q' = alpha q /\ buffer q' = buffer q /\ w q' = w q /\
  x q' = windowed_input q /\ X q' = transform_output q /\
  plan_nfft (p q') = plan_nfft (p q) /\
  plan_runs (p q') = S (plan_runs (p q)) /\
  index q' = 0 /\ num_windows q' = uint (num_windows q + 1).
Proof.
  unfold spgram_transform. cbn.
  destruct (num_windows q =? 0); cbn; repeat split; reflexivity.
Qed.

Lemma transform_psd (q : spgram) :
  psd (spgram_transform q)
  = if num_windows q =? 0 then
      for_loop (Z.to_nat (nfft q)) (fun j a => <[j := magnitude q j]> a)
        (psd q)
    else
      for_loop (Z.to_nat (nfft q))
        (fun j a =>
           <[j := blend (alpha q) (aget f_nan a j) (magnitude q j)]> a)
        (psd q).
Proof.
  unfold spgram_transform. cbn.
  destruct (num_windows q =? 0); reflexivity.
Qed.

(** Cell by cell: the magnitude on the first window, the blend of the old
    cell and the magnitude afterwards. *)
Lemma transform_psd_lookup (q : spgram) (j : nat) :
  psd (spgram_transform q) !! j
  = if decide (j < Z.to_nat (nfft q))%nat then
      (fun old =>
         if num_windows q =? 0 then magnitude q j
         else blend (alpha q) old (magnitude q j)) <$> (psd q !! j)
    else psd q !! j.
Proof.
  rewrite transform_psd. destruct (num_windows q =? 0).
  - apply (for_loop_fill_lookup (magnitude q)).
  - apply (for_loop_update_lookup f_nan
             (fun j old => blend (alpha q) old (magnitude q j))).
Qed.

Lemma transform_output_lookup (q : spgram) (j : nat) :
  (j < Z.to_nat (plan_nfft (p q)))%nat ->
  transform_output q !! j
  = Some (fft_forward (plan_nfft (p q)) (windowed_input q) j).
Proof.
  intros Hj. unfold transform_output.
  rewrite list_lookup_fmap, lookup_seq_lt by exact Hj. reflexivity.
Qed.

Lemma windowed_input_lookup (q : spgram) (k : nat) :
  windowed_input q !! k
  = if decide (k < Z.to_nat (M q))%nat then
      (fun _ => cmulf (windowcf_read (buffer q) k) (aget c_nan (w q) k))
      <$> (x q !! k)
    else x q !! k.
Proof.
  apply (for_loop_fill_lookup
           (fun k => cmulf (windowcf_read (buffer q) k)
                       (aget c_nan (w q) k))).
Qed.

Lemma windowed_input_length (q : spgram) :
  length (windowed_input q) = length (x q).
Proof.
  apply (for_loop_update_length
           (fun k _ => cmulf (windowcf_read (buffer q) k)
                         (aget c_nan (w q) k))).
Qed.

Lemma transform_psd_length (q : spgram) :
  length (psd (spgram_transform q)) = length (psd q).
Proof.
  rewrite transform_psd. destruct (num_windows q =? 0).
  - apply (for_loop_update_length (fun j _ => magnitude q j)).
  - apply (for_loop_update_length
             (fun j a => blend (alpha q) (aget f_nan a j) (magnitude q j))).
Qed.

Lemma transform_consistent (q : spgram) :
  consistent q -> consistent (spgram_transform q).
Proof.
  intros Hq.
  pose proof (transform_fields q) as
    (Hn & HM & Hd & Ha & Hb & Hw & Hx & HX & Hp & Hr & Hi & Hc).
  constructor; rewrite ?Hn, ?HM, ?Hd, ?Hi, ?Hp, ?Hw; try apply Hq.
  - pose proof (cons_delay q Hq). lia.
  - rewrite Hc. apply Z.mod_pos_bound. reflexivity.
  - rewrite Hx, windowed_input_length. apply Hq.
  - rewrite HX. unfold transform_output.
    rewrite length_map, length_seq, (cons_plan q Hq). reflexivity.
  - rewrite transform_psd_length. apply Hq.
  - intros k Hk. rewrite Hn, HM in Hk. rewrite Hx, windowed_input_lookup.
    destruct (decide (k < Z.to_nat (M q))%nat); [lia|].
    apply (cons_padding q Hq). exact Hk.
Qed.

End Transform.

(** ** Push, reset and the invariants *)

Section Push.
Context `{P : Platform}.

Lemma push_sample_unfold (q : spgram) (c : cfloat) :
  spgram_push_sample q c
  = if index (arrive q c) =? delay q then spgram_transform (arrive q c)
    else arrive q c.
Proof. reflexivity. Qed.

Lemma arrive_index (q : spgram) (c : cfloat) :
  consistent q -> index (arrive q c) = index q + 1.
Proof.
  intros Hq. cbn. apply uint_small. unfold is_uint.
  pose proof (cons_index q Hq). pose proof (cons_delay q Hq). lia.
Qed.

(** The two ways one sample can go. *)
Lemma push_sample_cases (q : spgram) (c : cfloat) :
  consistent q ->
  (index q + 1 = delay q /\
   spgram_push_sample q c = spgram_transform (arrive q c)) \/
  (index q + 1 < delay q /\ spgram_push_sample q c = arrive q c).
Proof.
  intros Hq. rewrite push_sample_unfold, arrive_index by exact Hq.
  pose proof (cons_index q Hq).
  destruct (Z.eqb_spec (index q + 1) (delay q)); [left|right]; split;
    try reflexivity; lia.
Qed.

Lemma push_sample_consistent (q : spgram) (c : cfloat) :
  consistent q -> consistent (spgram_push_sample q c).
Proof.
  intros Hq.
  assert (Ha : index q + 1 < delay q -> consistent (arrive q c)).
  { intros Hlt. constructor; try apply Hq.
    rewrite arrive_index by exact Hq. pose proof (cons_index q Hq).
    change (delay (arrive q c)) with (delay q). lia. }
  destruct (push_sample_cases q c Hq) as [[He ->]|[Hlt ->]].
  - assert (Hfire : consistent (set_index (arrive q c) 0)).
    { constructor; try apply Hq. cbn. pose proof (cons_delay q Hq). lia. }
    pose proof (transform_consistent _ Hfire) as Ht.
    exact Ht.
  - exact (Ha Hlt).
Qed.

Lemma push_app (q : spgram) (xs ys : list cfloat) :
  spgram_push q (xs ++ ys) = spgram_push (spgram_push q xs) ys.
Proof. unfold spgram_push. apply fold_left_app. Qed.

Lemma push_consistent (q : spgram) (xs : list cfloat) :
  consistent q -> consistent (spgram_push q xs).
Proof.
  revert q. induction xs as [|c xs IH]; intros q Hq; [exact Hq|].
  cbn. apply IH, push_sample_consistent, Hq.
Qed.

Lemma reset_consistent (q : spgram) :
  consistent q -> consistent (spgram_reset q).
Proof.
  intros Hq. constructor; try apply Hq.
  - cbn. pose proof (cons_delay q Hq). lia.
  - cbn. split; reflexivity.
Qed.

Lemma apply_operation_consistent (q : spgram) (o : operation) :
  consistent q -> consistent (apply_operation q o).
Proof.
  intros Hq. destruct o as [xs| |out]; cbn.
  - apply push_consistent, Hq.
  - apply reset_consistent, Hq.
  - rewrite execute_object. exact Hq.
Qed.

Lemma run_consistent (q : spgram) (ops : list operation) :
  consistent q -> consistent (run q ops).
Proof.
  revert q. induction ops as [|o ops IH]; intros q Hq; [exact Hq|].
  cbn. apply IH, apply_operation_consistent, Hq.
Qed.

End Push.

(** ** Objects built by the constructor *)

Section Constructed.
Context `{P : Platform}.

Lemma create_advanced_arrays (_nfft _m _delay : Z) (_alpha : float)
    (q : spgram) :
  spgram_create_advanced _nfft _m _delay _alpha = Returned q ->
  x q = replicate (Z.to_nat _nfft) (cfloat_of_float f_zero) /\
  length (X q) = Z.to_nat _nfft /\
  length (w q) = Z.to_nat _m /\
  length (psd q) = Z.to_nat _nfft /\
  plan_nfft (p q) = _nfft /\
  buffer q = windowcf_clear (windowcf_create _m).
Proof.
  intros Hq. unfold spgram_create_advanced in Hq.
  destruct (_nfft <? 2); [discriminate|].
  destruct (_m >? _nfft); [discriminate|].
  destruct (_delay =? 0); [discriminate|].
  destruct (fleb _alpha f_zero || fltb f_one _alpha); [discriminate|].
  injection Hq as <-. cbn. repeat split.
  - apply list_eq. intros k.
    rewrite (for_loop_fill_lookup (fun _ => cfloat_of_float f_zero)).
    destruct (decide (k < Z.to_nat _nfft)%nat) as [Hk|Hk].
    + rewrite lookup_replicate_2 by exact Hk.
      destruct (lookup_lt_is_Some_2 (malloc uninit_cfloat _nfft) k)
        as [v ->]; [rewrite malloc_length; exact Hk|reflexivity].
    + rewrite lookup_ge_None_2 by (rewrite malloc_length; lia).
      symmetry. apply lookup_replicate_None. lia.
  - apply malloc_length.
  - rewrite (for_loop_update_length
               (fun i _ => cfloat_of_float
                             (fdiv (hamming (Z.of_nat i) _m)
                                (float_of_int _m)))).
    apply malloc_length.
  - apply malloc_length.
Qed.

Lemma create_advanced_consistent (_nfft _m _delay : Z) (_alpha : float)
    (q : spgram) :
  is_uint _nfft -> is_uint _m -> is_uint _delay ->
  spgram_create_advanced _nfft _m _delay _alpha = Returned q ->
  consistent q.
Proof.
  unfold is_uint. intros Hn Hm Hd Hq.
  pose proof (create_advanced_returned _ _ _ _ _ Hq)
    as (Hr & En & EM & Ed & Ea & Ew & Ei & Ep).
  pose proof (create_advanced_arrays _ _ _ _ _ Hq)
    as (Ex & EX & Ewl & Epsd & Epl & Eb).
  unfold rejected in Hr.
  constructor; rewrite ?En, ?EM, ?Ed, ?Ei, ?Ew; try assumption; try lia.
  - split; reflexivity.
  - rewrite Ex, length_replicate. reflexivity.
  - intros k Hk. rewrite En in Hk. rewrite Ex.
    apply lookup_replicate_2. lia.
Qed.

Lemma constructed_consistent (q : spgram) : constructed q -> consistent q.
Proof.
  intros (_nfft & _m & _delay & _alpha & q0 & ops & Hn & Hm & Hd & Hq & ->).
  apply run_consistent.
  exact (create_advanced_consistent _ _ _ _ _ Hn Hm Hd Hq).
Qed.

Lemma constructed_step (q : spgram) (o : operation) :
  constructed q -> constructed (apply_operation q o).
Proof.
  intros (_nfft & _m & _delay & _alpha & q0 & ops & Hn & Hm & Hd & Hq & ->).
  exists _nfft, _m, _delay, _alpha, q0, (ops ++ [o]).
  repeat (split; [assumption|]).
  unfold run. symmetry. apply fold_left_app.
Qed.

End Constructed.

(** ** Accumulation, stride counter, transform input and reset *)

Section Claims.
Context `{P : Platform}.

(** C1. On the sample that makes the stride counter reach [D], the
    transform runs and every bin [k] of the PSD is updated: to the
    magnitude [cabsf(X[k])] of the new transform output when the transform
    count was 0, and to [(1 - alpha) * PSD[k] + alpha * cabsf(X[k])]
    otherwise; the transform count is then incremented (as an
    [unsigned int]). *)
Theorem C1_transform_accumulates :
  forall (q : spgram) (c : cfloat),
    constructed q ->
    index q + 1 = delay q ->
    let q' := spgram_push_sample q c in
    X q' = map (fft_forward (nfft q) (x q')) (seq 0 (Z.to_nat (nfft q))) /\
    (forall k : nat,
        (k < Z.to_nat (nfft q))%nat ->
        exists (old : float) (out : cfloat),
          psd q !! k = Some old /\ X q' !! k = Some out /\
          psd q' !! k
          = Some (if num_windows q =? 0 then cabsf out
                  else fadd (fmul (fsub f_one (alpha q)) old)
                            (fmul (alpha q) (cabsf out)))) /\
    num_windows q' = uint (num_windows q + 1) /\
    (num_windows q + 1 < UINT_MODULUS ->
     num_windows q' = num_windows q + 1).
Proof.
  intros q c Hc Hfire q'.
  pose proof (constructed_consistent q Hc) as Hq.
  destruct (push_sample_cases q c Hq) as [[_ E]|[Hlt _]]; [|lia].
  subst q'. rewrite E. clear E.
  pose proof (transform_fields (arrive q c))
    as (Hn & HM & Hd & Ha & Hb & Hw & Hx & HX & Hp & Hr & Hi & Hnw).
  cbv zeta in *.
  assert (Epl : plan_nfft (p (arrive q c)) = nfft q)
    by exact (cons_plan q Hq).
  split; [|split; [|split]].
  - rewrite HX, Hx. unfold transform_output. rewrite Epl. reflexivity.
  - intros k Hk.
    destruct (lookup_lt_is_Some_2 (psd q) k) as [old Hold].
    { rewrite (cons_psd q Hq). exact Hk. }
    exists old, (fft_forward (nfft q) (windowed_input (arrive q c)) k).
    split; [exact Hold|]. split.
    + rewrite HX, transform_output_lookup by (rewrite Epl; exact Hk).
      rewrite Epl. reflexivity.
    + rewrite transform_psd_lookup.
      change (nfft (arrive q c)) with (nfft q).
      change (psd (arrive q c)) with (psd q).
      change (num_windows (arrive q c)) with (num_windows q).
      change (alpha (arrive q c)) with (alpha q).
      destruct (decide (k < Z.to_nat (nfft q))%nat); [|lia].
      rewrite Hold. cbn [fmap option_fmap option_map].
      unfold magnitude, aget.
      rewrite transform_output_lookup by (rewrite Epl; exact Hk).
      rewrite Epl. reflexivity.
  - exact Hnw.
  - intros Hlt. rewrite Hnw. apply uint_small.
    pose proof (cons_windows q Hq) as Hu. unfold is_uint in *.
    change (num_windows (arrive q c)) with (num_windows q). lia.
Qed.

Lemma same_setup_refl (q : spgram) : same_setup q q.
Proof. repeat split. Qed.

Lemma same_setup_trans (q1 q2 q3 : spgram) :
  same_setup q1 q2 -> same_setup q2 q3 -> same_setup q1 q3.
Proof.
  unfold same_setup. intros (?&?&?&?&?&?) (?&?&?&?&?&?).
  repeat split; congruence.
Qed.

Lemma push_sample_setup (q : spgram) (c : cfloat) :
  same_setup (spgram_push_sample q c) q.
Proof.
  rewrite push_sample_unfold.
  destruct (index (arrive q c) =? delay q); [|repeat split].
  pose proof (transform_fields (arrive q c))
    as (Hn & HM & Hd & Ha & Hb & Hw & Hx & HX & Hp & Hr & Hi & Hnw).
  repeat split; assumption.
Qed.

Lemma push_setup (q : spgram) (xs : list cfloat) :
  same_setup (spgram_push q xs) q.
Proof.
  revert q. induction xs as [|c xs IH]; intros q; [apply same_setup_refl|].
  cbn. eapply same_setup_trans; [apply IH|apply push_sample_setup].
Qed.

Lemma apply_operation_setup (q : spgram) (o : operation) :
  same_setup (apply_operation q o) q.
Proof.
  destruct o as [xs| |out]; cbn.
  - apply push_setup.
  - repeat split.
  - rewrite execute_object. apply same_setup_refl.
Qed.

Lemma run_setup (q : spgram) (ops : list operation) :
  same_setup (run q ops) q.
Proof.
  revert q. induction ops as [|o ops IH]; intros q; [apply same_setup_refl|].
  cbn. eapply same_setup_trans; [apply IH|apply apply_operation_setup].
Qed.

(** *** The stride counter *)

Lemma push_sample_counts (q : spgram) (c : cfloat) :
  consistent q ->
  (index q + 1 = delay q ->
   index (spgram_push_sample q c) = 0 /\
   plan_runs (p (spgram_push_sample q c)) = S (plan_runs (p q))) /\
  (index q + 1 <> delay q ->
   index (spgram_push_sample q c) = index q + 1 /\
   plan_runs (p (spgram_push_sample q c)) = plan_runs (p q)).
Proof.
  intros Hq.
  destruct (push_sample_cases q c Hq) as [[He ->]|[Hlt ->]]; split;
    intros H; try lia.
  - pose proof (transform_fields (arrive q c))
      as (Hn & HM & Hd & Ha & Hb & Hw & Hx & HX & Hp & Hr & Hi & Hnw).
    split; [exact Hi|exact Hr].
  - split; [apply arrive_index; exact Hq|reflexivity].
Qed.

(** After [n] more samples the counter is [(index + n) mod D] and the
    number of transforms has grown by [(index + n) / D]. *)
Lemma push_counts (q : spgram) (xs : list cfloat) :
  consistent q ->
  index (spgram_push q xs)
  = (index q + Z.of_nat (length xs)) mod delay q /\
  Z.of_nat (plan_runs (p (spgram_push q xs)))
  = Z.of_nat (plan_runs (p q))
    + (index q + Z.of_nat (length xs)) / delay q.
Proof.
  revert q. induction xs as [|c xs IH]; intros q Hq.
  - pose proof (cons_index q Hq). cbn [spgram_push fold_left length].
    rewrite Z.add_0_r, Z.mod_small, Z.div_small by lia. lia.
  - pose proof (cons_index q Hq) as Hi. pose proof (cons_delay q Hq) as Hd.
    change (spgram_push q (c :: xs))
      with (spgram_push (spgram_push_sample q c) xs).
    destruct (IH _ (push_sample_consistent q c Hq)) as [IHi IHr].
    destruct (push_sample_setup q c) as (_ & _ & Ed & _).
    rewrite IHi, IHr, Ed. clear IHi IHr.
    rewrite length_cons, Nat2Z.inj_succ.
    destruct (push_sample_counts q c Hq) as [Hfire Hquiet].
    destruct (Z.eq_dec (index q + 1) (delay q)) as [He|Hne].
    + destruct (Hfire He) as [-> ->].
      replace (index q + Z.succ (Z.of_nat (length xs)))
        with (Z.of_nat (length xs) + 1 * delay q) by lia.
      rewrite Z.add_0_l, Z_mod_plus_full, Z.div_add by lia. lia.
    + destruct (Hquiet Hne) as [-> ->].
      replace (index q + Z.succ (Z.of_nat (length xs)))
        with (index q + 1 + Z.of_nat (length xs)) by lia.
      split; reflexivity.
Qed.

Lemma push_concat (q : spgram) (calls : list (list cfloat)) :
  fold_left spgram_push calls q = spgram_push q (concat calls).
Proof.
  revert q. induction calls as [|xs calls IH]; intros q; [reflexivity|].
  cbn [fold_left concat]. rewrite IH, push_app. reflexivity.
Qed.

(** C3. In every state of a constructed object the stride counter lies
    in [0, D). One pushed sample advances it by one, except that on
    reaching [D] it is set back to 0 and a transform runs, and no transform
    runs otherwise. Hence [n] samples pushed after a reset, over any
    number of calls, run exactly [floor(n / D)] transforms and leave the
    counter at [n mod D]. *)
Theorem C3_one_transform_per_stride :
  forall q : spgram,
    constructed q ->
    0 <= index q < delay q /\
    (forall c : cfloat,
        let q' := spgram_push_sample q c in
        (index q + 1 = delay q ->
         index q' = 0 /\ plan_runs (p q') = S (plan_runs (p q))) /\
        (index q + 1 <> delay q ->
         index q' = index q + 1 /\ plan_runs (p q') = plan_runs (p q))) /\
    (forall calls : list (list cfloat),
        let n := Z.of_nat (length (concat calls)) in
        let q' := fold_left spgram_push calls (spgram_reset q) in
        Z.of_nat (plan_runs (p q'))
        = Z.of_nat (plan_runs (p q)) + n / delay q /\
        index q' = n mod delay q /\
        0 <= index q' < delay q) /\
    (forall calls : list (list cfloat),
        index q = 0 ->
        let n := Z.of_nat (length (concat calls)) in
        let q' := fold_left spgram_push calls q in
        Z.of_nat (plan_runs (p q'))
        = Z.of_nat (plan_runs (p q)) + n / delay q /\
        index q' = n mod delay q).
Proof.
  intros q Hc. pose proof (constructed_consistent q Hc) as Hq.
  split; [exact (cons_index q Hq)|]. split; [|split].
  - intros c. exact (push_sample_counts q c Hq).
  - intros calls n q'. subst q'. rewrite push_concat.
    pose proof (reset_consistent q Hq) as Hr.
    destruct (push_counts (spgram_reset q) (concat calls) Hr) as [Hi Hn].
    change (index (spgram_reset q)) with 0 in *.
    change (delay (spgram_reset q)) with (delay q) in *.
    change (plan_runs (p (spgram_reset q))) with (plan_runs (p q)) in *.
    rewrite Z.add_0_l in *. fold n in Hi, Hn.
    split; [exact Hn|]. split; [exact Hi|].
    rewrite Hi. apply Z.mod_pos_bound. pose proof (cons_delay q Hq). lia.
  - intros calls Hi n q'. subst q'. rewrite push_concat.
    destruct (push_counts q (concat calls) Hq) as [Ei En].
    rewrite Hi, Z.add_0_l in Ei, En. fold n in Ei, En. split; assumption.
Qed.

(** *** The transform input *)

Lemma push_sample_x_outside (q : spgram) (c : cfloat) (k : nat) :
  (Z.to_nat (M q) <= k)%nat ->
  x (spgram_push_sample q c) !! k = x q !! k.
Proof.
  intros Hk. rewrite push_sample_unfold.
  destruct (index (arrive q c) =? delay q); [|reflexivity].
  pose proof (transform_fields (arrive q c))
    as (Hn & HM & Hd & Ha & Hb & Hw & Hx & HX & Hp & Hr & Hi & Hnw).
  rewrite Hx, windowed_input_lookup.
  change (M (arrive q c)) with (M q).
  destruct (decide (k < Z.to_nat (M q))%nat); [lia|reflexivity].
Qed.

Lemma push_x_outside (q : spgram) (xs : list cfloat) (k : nat) :
  (Z.to_nat (M q) <= k)%nat ->
  x (spgram_push q xs) !! k = x q !! k.
Proof.
  revert q. induction xs as [|c xs IH]; intros q Hk; [reflexivity|].
  change (spgram_push q (c :: xs))
    with (spgram_push (spgram_push_sample q c) xs).
  destruct (push_sample_setup q c) as (_ & EM & _).
  rewrite IH by (rewrite EM; exact Hk).
  apply push_sample_x_outside. exact Hk.
Qed.

(** C6. In every state of a constructed object, from the fresh one
    on, positions [M, N) of the transform input hold zero. Reset and
    execute do not touch the array, and a push leaves every position from
    [M] on as it was. *)
Theorem C6_transform_input_padding :
  forall q : spgram,
    constructed q ->
    (forall k : nat,
        (Z.to_nat (M q) <= k < Z.to_nat (nfft q))%nat ->
        x q !! k = Some (cfloat_of_float f_zero)) /\
    x (spgram_reset q) = x q /\
    (forall _X : list float, x (fst (spgram_execute q _X)) = x q) /\
    (forall (_x : list cfloat) (k : nat),
        (Z.to_nat (M q) <= k)%nat ->
        x (spgram_push q _x) !! k = x q !! k).
Proof.
  intros q Hc. pose proof (constructed_consistent q Hc) as Hq.
  split; [exact (cons_padding q Hq)|]. split; [reflexivity|]. split.
  - intros _X. rewrite execute_object. reflexivity.
  - intros _x k Hk. apply push_x_outside. exact Hk.
Qed.

(** *** Reset *)

(** As long as the counter stays below [D], a push only feeds the buffer
    and counts. *)
Lemma push_quiet (q : spgram) (xs : list cfloat) :
  consistent q ->
  index q + Z.of_nat (length xs) < delay q ->
  spgram_push q xs
  = set_index (set_buffer q (fold_left windowcf_push xs (buffer q)))
      (index q + Z.of_nat (length xs)).
Proof.
  revert q. induction xs as [|c xs IH]; intros q Hq Hlt.
  - cbn. rewrite Z.add_0_r. destruct q; reflexivity.
  - rewrite length_cons, Nat2Z.inj_succ in Hlt.
    change (spgram_push q (c :: xs))
      with (spgram_push (spgram_push_sample q c) xs).
    destruct (push_sample_cases q c Hq) as [[He _]|[_ E]]; [lia|].
    pose proof (push_sample_consistent q c Hq) as Hq1.
    rewrite E in *. rewrite IH; [|exact Hq1|].
    + rewrite arrive_index by exact Hq.
      rewrite length_cons, Nat2Z.inj_succ.
      replace (index q + 1 + Z.of_nat (length xs))
        with (index q + Z.succ (Z.of_nat (length xs))) by lia.
      reflexivity.
    + rewrite arrive_index by exact Hq.
      change (delay (arrive q c)) with (delay q). lia.
Qed.

(** Pushing exactly [D] samples onto a counter at 0 runs one transform,
    on the last sample. *)
Lemma push_first_stride (q : spgram) (xs : list cfloat) :
  consistent q -> index q = 0 ->
  Z.of_nat (length xs) = delay q ->
  spgram_push q xs = spgram_transform (stride_filled q xs).
Proof.
  intros Hq Hi Hlen. pose proof (cons_delay q Hq) as Hd.
  destruct (exists_last (l := xs)) as (pre & c & ->).
  { intros ->. cbn in Hlen. lia. }
  rewrite length_app in Hlen. cbn [length] in Hlen.
  rewrite push_app, (push_quiet q pre) by (try exact Hq; lia).
  set (q1 := set_index _ _).
  assert (Hq1 : consistent q1).
  { subst q1. rewrite <- (push_quiet q pre) by (try exact Hq; lia).
    apply push_consistent, Hq. }
  change (spgram_push q1 [c]) with (spgram_push_sample q1 c).
  destruct (push_sample_cases q1 c Hq1) as [[_ ->]|[Hlt _]].
  - unfold stride_filled. rewrite fold_left_app. reflexivity.
  - subst q1. cbn in Hlt. lia.
Qed.

(** The transform of a first window does not depend on what the arrays
    held before: positions below [M] of the input are overwritten, those
    from [M] on are zero, and every PSD cell is assigned. *)
Lemma first_transform_determined (q1 q2 : spgram) :
  consistent q1 -> consistent q2 ->
  same_setup q1 q2 -> buffer q1 = buffer q2 ->
  num_windows q1 = 0 -> num_windows q2 = 0 ->
  x (spgram_transform q1) = x (spgram_transform q2) /\
  X (spgram_transform q1) = X (spgram_transform q2) /\
  psd (spgram_transform q1) = psd (spgram_transform q2).
Proof.
  intros H1 H2 (En & EM & Ed & Ea & Ew & Ep) Eb Z1 Z2.
  pose proof (transform_fields q1)
    as (_ & _ & _ & _ & _ & _ & Hx1 & HX1 & _).
  pose proof (transform_fields q2)
    as (_ & _ & _ & _ & _ & _ & Hx2 & HX2 & _).
  assert (Ewin : windowed_input q1 = windowed_input q2).
  { apply list_eq. intros k. rewrite !windowed_input_lookup.
    rewrite EM, Eb, Ew.
    destruct (decide (k < Z.to_nat (nfft q2))%nat) as [Hk|Hk].
    - destruct (lookup_lt_is_Some_2 (x q1) k) as [v1 E1].
      { rewrite (cons_x q1 H1), En. exact Hk. }
      destruct (lookup_lt_is_Some_2 (x q2) k) as [v2 E2].
      { rewrite (cons_x q2 H2). exact Hk. }
      destruct (decide (k < Z.to_nat (M q2))%nat) as [HM|HM].
      + rewrite E1, E2. reflexivity.
      + rewrite (cons_padding q1 H1) by (rewrite En, EM; lia).
        rewrite (cons_padding q2 H2) by lia. reflexivity.
    - rewrite (lookup_ge_None_2 (x q1)) by (rewrite (cons_x q1 H1), En; lia).
      rewrite (lookup_ge_None_2 (x q2)) by (rewrite (cons_x q2 H2); lia).
      reflexivity. }
  assert (Eout : transform_output q1 = transform_output q2).
  { unfold transform_output. rewrite Ewin, Ep. reflexivity. }
  split; [congruence|]. split; [congruence|].
  apply list_eq. intros j. rewrite !transform_psd_lookup, Z1, Z2, En.
  cbn [Z.eqb]. unfold magnitude. rewrite Eout.
  destruct (decide (j < Z.to_nat (nfft q2))%nat) as [Hj|Hj].
  - destruct (lookup_lt_is_Some_2 (psd q1) j) as [v1 ->].
    { rewrite (cons_psd q1 H1), En. exact Hj. }
    destruct (lookup_lt_is_Some_2 (psd q2) j) as [v2 ->].
    { rewrite (cons_psd q2 H2). exact Hj. }
    reflexivity.
  - rewrite (lookup_ge_None_2 (psd q1))
      by (rewrite (cons_psd q1 H1), En; lia).
    rewrite (lookup_ge_None_2 (psd q2)) by (rewrite (cons_psd q2 H2); lia).
    reflexivity.
Qed.

Lemma stride_filled_consistent (q : spgram) (xs : list cfloat) :
  consistent q -> consistent (set_index (stride_filled q xs) 0).
Proof.
  intros Hq. constructor; try apply Hq.
  cbn. pose proof (cons_delay q Hq). lia.
Qed.

(** C5. When the transform count is 0, [spgram_execute] fills the [N]
    cells of the output with [0.0f]; and the count is 0 on the object the
    constructor returns, after a reset, and as long as fewer than [D]
    samples have been pushed since the reset. *)
Theorem C5_execute_before_first_transform :
  forall (q : spgram) (_X : list float),
    length _X = Z.to_nat (nfft q) ->
    (num_windows q = 0 ->
     snd (spgram_execute q _X) = replicate (Z.to_nat (nfft q)) f_zero) /\
    (forall (_nfft _m _delay : Z) (_alpha : float),
        spgram_create_advanced _nfft _m _delay _alpha = Returned q ->
        num_windows q = 0) /\
    num_windows (spgram_reset q) = 0 /\
    (constructed q ->
     forall _x : list cfloat,
       Z.of_nat (length _x) < delay q ->
       num_windows (spgram_push (spgram_reset q) _x) = 0 /\
       snd (spgram_execute (spgram_push (spgram_reset q) _x) _X)
       = replicate (Z.to_nat (nfft q)) f_zero).
Proof.
  intros q _X Hlen. split; [|split; [|split]].
  - intros Hz. apply execute_zeros; assumption.
  - intros _nfft _m _delay _alpha Hq.
    apply create_advanced_returned in Hq. tauto.
  - reflexivity.
  - intros Hc _x Hlt.
    pose proof (reset_consistent q (constructed_consistent q Hc)) as Hr.
    assert (Hz : num_windows (spgram_push (spgram_reset q) _x) = 0).
    { rewrite push_quiet by (try exact Hr; exact Hlt). reflexivity. }
    split; [exact Hz|].
    destruct (push_setup (spgram_reset q) _x) as (En & _).
    change (nfft (spgram_reset q)) with (nfft q) in En.
    rewrite <- En. apply execute_zeros; [exact Hz|]. rewrite En. exact Hlen.
Qed.

Lemma transform_idle_index (q : spgram) (n : Z) :
  spgram_transform (set_index q n) = spgram_transform q.
Proof. reflexivity. Qed.

(** C9. Reset clears the buffer and sets the stride counter and the
    transform count to 0; the configuration, the window coefficients and
    every array are left as they were. The [D] samples pushed next run one
    transform whose magnitudes are stored unblended, and when clearing
    gives back the buffer of construction, the transform input, the
    transform output and the PSD are those of a freshly built object given
    the same samples. *)
Theorem C9_reset_restores_first_transform :
  forall (_nfft _m _delay : Z) (_alpha : float) (q0 : spgram)
         (ops : list operation),
    is_uint _nfft -> is_uint _m -> is_uint _delay ->
    spgram_create_advanced _nfft _m _delay _alpha = Returned q0 ->
    let q := run q0 ops in
    let r := spgram_reset q in
    (buffer r = windowcf_clear (buffer q) /\ index r = 0 /\
     num_windows r = 0) /\
    (nfft r = nfft q /\ M r = M q /\ delay r = delay q /\
     alpha r = alpha q /\ w r = w q /\
     x r = x q /\ X r = X q /\ psd r = psd q /\ p r = p q) /\
    (nfft r = _nfft /\ M r = _m /\ delay r = _delay /\ alpha r = _alpha /\
     w r = w q0) /\
    forall _x : list cfloat,
      Z.of_nat (length _x) = _delay ->
      let q' := spgram_push r _x in
      num_windows q' = 1 /\ index q' = 0 /\
      plan_runs (p q') = S (plan_runs (p q)) /\
      (forall k : nat,
          (k < Z.to_nat _nfft)%nat ->
          exists out : cfloat,
            X q' !! k = Some out /\ psd q' !! k = Some (cabsf out)) /\
      (windowcf_clear (buffer q) = buffer q0 ->
       x q' = x (spgram_push q0 _x) /\
       X q' = X (spgram_push q0 _x) /\
       psd q' = psd (spgram_push q0 _x) /\
       buffer q' = buffer (spgram_push q0 _x) /\
       num_windows q' = num_windows (spgram_push q0 _x) /\
       index q' = index (spgram_push q0 _x)).
Proof.
  intros _nfft _m _delay _alpha q0 ops Hn Hm Hd Hcreate q r.
  pose proof (create_advanced_returned _ _ _ _ _ Hcreate)
    as (_ & En0 & EM0 & Ed0 & Ea0 & Ew0 & Ei0 & _).
  pose proof (create_advanced_consistent _ _ _ _ _ Hn Hm Hd Hcreate) as Hq0.
  pose proof (run_consistent q0 ops Hq0) as Hq.
  pose proof (run_setup q0 ops) as Hs.
  change (run q0 ops) with q in Hq, Hs. clearbody q.
  pose proof (reset_consistent q Hq) as Hr.
  change (spgram_reset q) with r in Hr.
  destruct Hs as (En & EM & Ed & Ea & Ew & Ep).
  split; [repeat split|]. split; [repeat split|].
  split; [subst r; cbn; repeat split; congruence|].
  intros _x Hlen q'.
  assert (Hpush : q' = spgram_transform (stride_filled r _x)).
  { apply push_first_stride; [exact Hr|reflexivity|].
    change (delay r) with (delay q). congruence. }
  pose proof (transform_fields (stride_filled r _x))
    as (Tn & TM & Td & Ta & Tb & Tw & Tx & TX & Tp & Tr & Ti & Tnw).
  cbv zeta in *. rewrite <- Hpush in *.
  assert (Epl : plan_nfft (p (stride_filled r _x)) = _nfft).
  { change (plan_nfft (p q) = _nfft). rewrite (cons_plan q Hq). congruence. }
  split; [rewrite Tnw; reflexivity|]. split; [exact Ti|].
  split; [exact Tr|]. split.
  - intros k Hk.
    exists (fft_forward _nfft (windowed_input (stride_filled r _x)) k).
    assert (HX : X q' !! k
                 = Some (fft_forward _nfft
                           (windowed_input (stride_filled r _x)) k)).
    { rewrite TX, transform_output_lookup by (rewrite Epl; exact Hk).
      rewrite Epl. reflexivity. }
    split; [exact HX|].
    rewrite Hpush, transform_psd_lookup.
    change (nfft (stride_filled r _x)) with (nfft q).
    change (psd (stride_filled r _x)) with (psd q).
    change (num_windows (stride_filled r _x)) with 0.
    destruct (decide (k < Z.to_nat (nfft q))%nat) as [_|Hge];
      [|rewrite En, En0 in Hge; lia].
    destruct (lookup_lt_is_Some_2 (psd q) k) as [old ->].
    { rewrite (cons_psd q Hq), En, En0. exact Hk. }
    cbn [fmap option_fmap option_map Z.eqb]. unfold magnitude, aget.
    rewrite <- TX, HX. reflexivity.
  - intros Hclear.
    assert (Hpush0 : spgram_push q0 _x
                     = spgram_transform (stride_filled q0 _x)).
    { apply push_first_stride; [exact Hq0|exact Ei0|congruence]. }
    pose proof (transform_fields (stride_filled q0 _x))
      as (_ & _ & _ & _ & Fb & _ & _ & _ & _ & _ & Fi & Fnw).
    cbv zeta in *. rewrite <- Hpush0 in *.
    assert (Ebuf : buffer (stride_filled r _x) = buffer (stride_filled q0 _x)).
    { cbn. rewrite Hclear. reflexivity. }
    destruct (first_transform_determined
                (set_index (stride_filled r _x) 0)
                (set_index (stride_filled q0 _x) 0))
      as (Gx & GX & Gpsd).
    + apply stride_filled_consistent, Hr.
    + apply stride_filled_consistent, Hq0.
    + repeat split; cbn; assumption.
    + exact Ebuf.
    + reflexivity.
    + exact Ew0.
    + rewrite !transform_idle_index, <- Hpush, <- Hpush0 in *.
      repeat split; try assumption.
      * rewrite Tb, Fb. exact Ebuf.
      * rewrite Tnw, Fnw. cbn. rewrite Ew0. reflexivity.
      * congruence.
Qed.

End Claims.

(** ** The sign of binary32 results *)

(** Rounding keeps the sign it is given. *)
Lemma binary_round_aux_nonneg (m e : Z) (l : location) :
  nan_or_nonneg (binary_round_aux FLT_PREC FLT_EMAX false m e l).
Proof.
  unfold binary_round_aux.
  destruct (shr_fexp FLT_PREC FLT_EMAX m e l) as [mrs' e'].
  destruct (shr_fexp FLT_PREC FLT_EMAX _ e' loc_Exact) as [mrs'' e''].
  destruct (shr_m mrs''); [exact I| |exact I].
  destruct (e'' <=? FLT_EMAX - FLT_PREC); exact I.
Qed.

Lemma binary_round_nonneg (m : positive) (e : Z) :
  nan_or_nonneg (binary_round FLT_PREC FLT_EMAX false m e).
Proof.
  unfold binary_round.
  destruct (shl_align m e _) as [mz ez]. apply binary_round_aux_nonneg.
Qed.

Lemma binary_normalize_nonneg (m e : Z) :
  0 <= m -> nan_or_nonneg (binary_normalize FLT_PREC FLT_EMAX m e false).
Proof.
  intros Hm. destruct m as [|m|m]; [exact I| |lia].
  apply binary_round_nonneg.
Qed.

Lemma fmul_nonneg (a b : float) :
  nan_or_nonneg a -> nan_or_nonneg b -> nan_or_nonneg (fmul a b).
Proof.
  destruct a as [[]|[]| |[] ma ea], b as [[]|[]| |[] mb eb];
    cbn; try tauto.
  intros _ _. apply binary_round_aux_nonneg.
Qed.

Lemma fadd_nonneg (a b : float) :
  nan_or_nonneg a -> nan_or_nonneg b -> nan_or_nonneg (fadd a b).
Proof.
  destruct a as [[]|[]| |[] ma ea], b as [[]|[]| |[] mb eb];
    cbn -[binary_normalize]; try tauto.
  intros _ _. apply binary_normalize_nonneg. cbn. lia.
Qed.

Lemma shl_align_value (m : positive) (e e' : Z) :
  e' <= e -> Zpos (fst (shl_align m e e')) = Zpos m * 2 ^ (e - e').
Proof.
  intros Hle. unfold shl_align.
  destruct (e' - e) as [|d|d] eqn:Hd; try lia.
  - replace (e - e') with 0 by lia. cbn [fst]. lia.
  - cbn [fst]. replace (e - e') with (Zpos d) by lia.
    rewrite (Pos.iter_swap_gen _ _ Zpos xO (Z.mul 2)) by reflexivity.
    change (Pos.iter (Z.mul 2) (Zpos m) d) with (Z.shiftl (Zpos m) (Zpos d)).
    apply Z.shiftl_mul_pow2. lia.
Qed.

Lemma digits2_pos_bound (m : positive) :
  Zpos m < 2 ^ Zpos (digits2_pos m).
Proof.
  induction m as [m IH|m IH|]; cbn [digits2_pos];
    rewrite ?Pos2Z.inj_succ, ?Z.pow_succ_r by lia; lia.
Qed.

(** The mantissa of a binary32 value has at most 24 bits. *)
Lemma binary32_mantissa_bound (s : bool) (m : positive) (e : Z) :
  is_binary32 (S754_finite s m e) -> Zpos m < 2 ^ 24.
Proof.
  unfold is_binary32, valid_binary, bounded, canonical_mantissa, fexp, emin.
  intros H. apply andb_prop in H as [H _]. apply Z.eqb_eq in H.
  pose proof (digits2_pos_bound m) as Hb.
  assert (Hd : Zpos (digits2_pos m) <= 24)
    by (unfold FLT_PREC, FLT_EMAX in H; lia).
  eapply Z.lt_le_trans; [exact Hb|].
  apply Z.pow_le_mono_r; lia.
Qed.

Lemma alpha_accepted_nonneg (a : float) :
  alpha_accepted a -> nan_or_nonneg a.
Proof.
  unfold alpha_accepted.
  destruct a as [[]|[]| |[] m e]; cbn; intuition congruence.
Qed.

Lemma one_minus_alpha_nonneg (a : float) :
  is_binary32 a -> alpha_accepted a -> nan_or_nonneg (fsub f_one a).
Proof.
  intros Hv [H0 H1]. destruct a as [[]|[]| |[] m e]; try discriminate;
    try exact I.
  pose proof (binary32_mantissa_bound _ _ _ Hv) as Hm.
  unfold fsub, f_one, SFsub. apply binary_normalize_nonneg.
  cbn [cond_Zopp].
  unfold fltb, SFltb, f_one, SFcompare in H1.
  destruct (Z.compare_spec (-23) e) as [He|He|He]; try discriminate.
  - subst e. rewrite Z.min_id, !shl_align_value by lia.
    rewrite Z.sub_diag, Z.pow_0_r.
    change (Pos.compare_cont Eq 8388608 m)
      with (Z.compare 8388608 (Zpos m)) in H1.
    destruct (Z.compare_spec 8388608 (Zpos m)) as [E|E|E];
      [rewrite <- E; reflexivity|discriminate H1|lia].
  - rewrite Z.min_r, !shl_align_value by lia.
    rewrite Z.sub_diag, Z.pow_0_r.
    assert (2 ^ 1 <= 2 ^ (-23 - e)) by (apply Z.pow_le_mono_r; lia).
    change (2 ^ 24) with (8388608 * 2 ^ 1) in Hm. nia.
Qed.

Lemma blend_nonneg (a old mag : float) :
  is_binary32 a -> alpha_accepted a ->
  nan_or_nonneg old -> nan_or_nonneg mag ->
  nan_or_nonneg (blend a old mag).
Proof.
  intros Hv Ha Ho Hm. unfold blend.
  apply fadd_nonneg; apply fmul_nonneg; try assumption.
  - apply one_minus_alpha_nonneg; assumption.
  - apply alpha_accepted_nonneg; assumption.
Qed.

(** ** The PSD is never negative *)

Section Sign.
Context `{P : Platform}.

Section WithMagnitude.
Hypothesis cabsf_nonneg : forall z : cfloat, nan_or_nonneg (cabsf z).

Lemma transform_psd_sound (q : spgram) :
  consistent q -> is_binary32 (alpha q) -> alpha_accepted (alpha q) ->
  psd_sound q -> psd_sound (spgram_transform q).
Proof.
  intros Hq Hv Ha [Hw Hs].
  pose proof (transform_fields q)
    as (_ & _ & _ & _ & _ & _ & _ & _ & _ & Hr & _).
  cbv zeta in Hr. split; [intros _; rewrite Hr; discriminate|].
  intros _ k v. rewrite transform_psd_lookup.
  destruct (decide (k < Z.to_nat (nfft q))%nat) as [Hk|Hk].
  - destruct (psd q !! k) as [old|] eqn:Hold; [|discriminate].
    cbn [fmap option_fmap option_map]. intros [= <-].
    destruct (Z.eqb_spec (num_windows q) 0) as [Hz|Hnz].
    + apply cabsf_nonneg.
    + apply blend_nonneg; try assumption.
      * exact (Hs (Hw Hnz) k old Hold).
      * apply cabsf_nonneg.
  - rewrite lookup_ge_None_2 by (rewrite (cons_psd q Hq); lia).
    discriminate.
Qed.

Lemma push_sample_psd_sound (q : spgram) (c : cfloat) :
  consistent q -> is_binary32 (alpha q) -> alpha_accepted (alpha q) ->
  psd_sound q -> psd_sound (spgram_push_sample q c).
Proof.
  intros Hq Hv Ha Hs.
  destruct (push_sample_cases q c Hq) as [[_ ->]|[_ ->]]; [|exact Hs].
  rewrite <- (transform_idle_index (arrive q c) 0).
  apply transform_psd_sound; try assumption.
  constructor; try apply Hq. cbn. pose proof (cons_delay q Hq). lia.
Qed.

Lemma push_psd_sound (q : spgram) (xs : list cfloat) :
  consistent q -> is_binary32 (alpha q) -> alpha_accepted (alpha q) ->
  psd_sound q -> psd_sound (spgram_push q xs).
Proof.
  revert q. induction xs as [|c xs IH]; intros q Hq Hv Ha Hs; [exact Hs|].
  change (spgram_push q (c :: xs))
    with (spgram_push (spgram_push_sample q c) xs).
  destruct (push_sample_setup q c) as (_ & _ & _ & Ea & _).
  apply IH; rewrite ?Ea; try assumption.
  - apply push_sample_consistent, Hq.
  - apply push_sample_psd_sound; assumption.
Qed.

Lemma run_psd_sound (q : spgram) (ops : list operation) :
  consistent q -> is_binary32 (alpha q) -> alpha_accepted (alpha q) ->
  psd_sound q -> psd_sound (run q ops).
Proof.
  revert q. induction ops as [|o ops IH]; intros q Hq Hv Ha Hs; [exact Hs|].
  change (run q (o :: ops)) with (run (apply_operation q o) ops).
  destruct (apply_operation_setup q o) as (_ & _ & _ & Ea & _).
  apply IH; rewrite ?Ea; try assumption.
  - apply apply_operation_consistent, Hq.
  - destruct o as [xs| |out]; cbn.
    + apply push_psd_sound; assumption.
    + destruct Hs as [_ Hs]. split; [intros H; contradiction H; reflexivity|].
      exact Hs.
    + rewrite execute_object. exact Hs.
Qed.

End WithMagnitude.

(** C8, as amended. When [cabsf] returns NaN or a value with a clear
    sign bit, as the C standard has it, and the averaging factor is a
    binary32 value, every PSD cell of a constructed object on which a
    transform has completed is NaN or non-negative ([+0], positive finite
    or [+inf]): no operation makes a cell negative. *)
Theorem C8_psd_never_negative :
  forall q : spgram,
    (forall z : cfloat, nan_or_nonneg (cabsf z)) ->
    constructed q ->
    is_binary32 (alpha q) ->
    plan_runs (p q) <> 0%nat ->
    forall (k : nat) (v : float), psd q !! k = Some v -> nan_or_nonneg v.
Proof.
  intros q Hcabs
    (_nfft & _m & _delay & _alpha & q0 & ops & Hn & Hm & Hd & Hq0 & ->) Hv.
  pose proof (create_advanced_returned _ _ _ _ _ Hq0)
    as (Hr & _ & _ & _ & Ea & Ew & _ & Ep).
  destruct (run_setup q0 ops) as (_ & _ & _ & Ea' & _).
  rewrite Ea' in Hv.
  assert (Hacc : alpha_accepted (alpha q0)).
  { rewrite Ea. unfold rejected in Hr. unfold alpha_accepted.
    destruct (fleb _alpha f_zero), (fltb f_one _alpha); tauto. }
  assert (Hs0 : psd_sound q0).
  { split; [intros H; contradiction|intros H; contradiction]. }
  exact (proj2 (run_psd_sound Hcabs q0 ops
                  (create_advanced_consistent _ _ _ _ _ Hn Hm Hd Hq0)
                  Hv Hacc Hs0)).
Qed.

End Sign.

(** ** The reference platform at work *)

Ltac uint_range := unfold is_uint, UINT_MODULUS, UINT_BITS; lia.

Lemma fmul_self_nonneg (a : float) : nan_or_nonneg (fmul a a).
Proof.
  destruct a as [[]|[]| |[] m e]; cbn; try exact I;
    apply binary_round_aux_nonneg.
Qed.

Lemma reference_cabsf_nonneg (z : cfloat) :
  nan_or_nonneg (Reference.cabsf_model z).
Proof.
  unfold Reference.cabsf_model.
  pose proof (fadd_nonneg _ _ (fmul_self_nonneg (fst z))
                (fmul_self_nonneg (snd z))) as H.
  destruct (fadd (fmul (fst z) (fst z)) (fmul (snd z) (snd z)))
    as [[]|[]| |[] m e]; try contradiction; try exact I.
  unfold SFsqrt.
  destruct (SFsqrt_core_binary FLT_PREC FLT_EMAX (Zpos m) e) as [[mz ez] lz].
  apply binary_round_aux_nonneg.
Qed.

Lemma reference_clear_push (b : Reference.wbuf) (c : cfloat) :
  Reference.wbuf_clear (Reference.wbuf_push b c) = Reference.wbuf_clear b.
Proof.
  unfold Reference.wbuf_clear. destruct b as [|c0 b]; [reflexivity|].
  cbn [Reference.wbuf_push]. rewrite length_app. cbn [length].
  f_equal. lia.
Qed.

Lemma reference_clear_clear (b : Reference.wbuf) :
  Reference.wbuf_clear (Reference.wbuf_clear b) = Reference.wbuf_clear b.
Proof.
  unfold Reference.wbuf_clear. rewrite length_replicate. reflexivity.
Qed.

Section ClearedBuffer.
Context `{P : Platform}.
Hypothesis clear_push :
  forall (b : windowcf) (c : cfloat),
    windowcf_clear (windowcf_push b c) = windowcf_clear b.
Hypothesis clear_clear :
  forall b : windowcf, windowcf_clear (windowcf_clear b) = windowcf_clear b.

Lemma push_buffer_cleared (q : spgram) (xs : list cfloat) :
  windowcf_clear (buffer (spgram_push q xs)) = windowcf_clear (buffer q).
Proof.
  revert q. induction xs as [|c xs IH]; intros q; [reflexivity|].
  change (spgram_push q (c :: xs))
    with (spgram_push (spgram_push_sample q c) xs).
  rewrite IH, push_sample_unfold.
  destruct (index (arrive q c) =? delay q).
  - pose proof (transform_fields (arrive q c))
      as (_ & _ & _ & _ & Hb & _).
    rewrite Hb. apply clear_push.
  - apply clear_push.
Qed.

(** Whatever was called on the object, clearing its buffer gives what
    clearing the buffer of the fresh object gives. *)
Lemma run_buffer_cleared (q : spgram) (ops : list operation) :
  windowcf_clear (buffer (run q ops)) = windowcf_clear (buffer q).
Proof.
  revert q. induction ops as [|o ops IH]; intros q; [reflexivity|].
  change (run q (o :: ops)) with (run (apply_operation q o) ops).
  rewrite IH. destruct o as [xs| |out]; cbn [apply_operation].
  - apply push_buffer_cleared.
  - apply clear_clear.
  - rewrite execute_object. reflexivity.
Qed.

End ClearedBuffer.

(** The object used in the runs below: [N = 4], [M = 2], [D = 1],
    [alpha = 0.5]. *)
Lemma reference_fresh :
  exists q0 : spgram (P := Reference.platform),
    spgram_create_advanced 4 2 1 Reference.half = Returned q0.
Proof.
  destruct (create_advanced_cases (P := Reference.platform)
              4 2 1 Reference.half) as [[Hr _]|[_ Hq]]; [|exact Hq].
  exfalso. unfold rejected in Hr. vm_compute in Hr.
  destruct Hr as [?|[?|[?|[?|?]]]]; discriminate.
Qed.

Lemma reference_constructed (q0 : spgram (P := Reference.platform))
    (ops : list operation) :
  spgram_create_advanced 4 2 1 Reference.half = Returned q0 ->
  constructed (run q0 ops).
Proof.
  intros Hq0. exists 4, 2, 1, Reference.half, q0, ops.
  do 3 (split; [uint_range|]).
  split; [exact Hq0|reflexivity].
Qed.

Lemma reference_nan_stride :
  Reference.first_stride Reference.nan_sample
  = ([S754_nan; S754_nan; S754_nan; S754_nan], 1%nat).
Proof. vm_compute. reflexivity. Qed.

Lemma reference_unit_stride :
  Reference.first_stride Reference.unit_sample
  = (replicate 4 (S754_finite false 10297184 (-28)), 1%nat).
Proof. vm_compute. reflexivity. Qed.

(** C8 as stated fails. With a magnitude function that never returns a
    negative value and the averaging factor 0.5, one NaN sample pushed
    onto the fresh object leaves NaN, which is no real number, in every
    PSD cell. *)
Lemma C8_nan_sample_leaves_nan_psd :
  ~ (forall (P : Platform) (q : spgram),
        (forall z : cfloat, nan_or_nonneg (cabsf z)) ->
        constructed q ->
        is_binary32 (alpha q) ->
        plan_runs (p q) <> 0%nat ->
        forall (k : nat) (v : float), psd q !! k = Some v -> nonneg_real v).
Proof.
  intros H. destruct reference_fresh as [q0 Hq0].
  pose proof reference_nan_stride as Hrun.
  unfold Reference.first_stride in Hrun. rewrite Hq0 in Hrun.
  injection Hrun as Hpsd Hruns.
  pose proof (create_advanced_returned _ _ _ _ _ Hq0)
    as (_ & _ & _ & _ & Ea & _).
  destruct (push_sample_setup q0 Reference.nan_sample)
    as (_ & _ & _ & Ea' & _).
  apply (H Reference.platform (run q0 [op_push [Reference.nan_sample]])
           reference_cabsf_nonneg (reference_constructed q0 _ Hq0))
    with (k := 0%nat) (v := S754_nan);
    change (run q0 [op_push [Reference.nan_sample]])
      with (spgram_push_sample q0 Reference.nan_sample).
  - rewrite Ea', Ea. reflexivity.
  - rewrite Hruns. discriminate.
  - rewrite Hpsd. reflexivity.
Qed.

(** ** The theorems at concrete inputs *)

Lemma C1_transform_accumulates_witness :
  exists q0 : spgram (P := Reference.platform),
    spgram_create_advanced 4 2 1 Reference.half = Returned q0 /\
    constructed q0 /\ index q0 + 1 = delay q0 /\
    (exists (old : float) (out : cfloat),
        psd q0 !! 0%nat = Some old /\
        X (spgram_push_sample q0 Reference.unit_sample) !! 0%nat
        = Some out /\
        psd (spgram_push_sample q0 Reference.unit_sample) !! 0%nat
        = Some (if num_windows q0 =? 0 then @cabsf Reference.platform out
                else fadd (fmul (fsub f_one (alpha q0)) old)
                          (fmul (alpha q0) (@cabsf Reference.platform out)))) /\
    num_windows (spgram_push_sample q0 Reference.unit_sample)
    = uint (num_windows q0 + 1).
Proof.
  destruct reference_fresh as [q0 Hq0]. exists q0.
  pose proof (create_advanced_returned _ _ _ _ _ Hq0)
    as (_ & En & _ & Ed & _ & _ & Ei & _).
  assert (Hc : constructed q0) by exact (reference_constructed q0 [] Hq0).
  assert (Hi : index q0 + 1 = delay q0) by (rewrite Ei, Ed; reflexivity).
  destruct (C1_transform_accumulates q0 Reference.unit_sample Hc Hi)
    as (_ & Hpsd & Hnw & _).
  split; [exact Hq0|]. split; [exact Hc|]. split; [exact Hi|].
  split; [|exact Hnw].
  apply Hpsd. rewrite En. cbn. lia.
Defined.

Lemma C3_one_transform_per_stride_witness :
  exists q0 : spgram (P := Reference.platform),
    spgram_create_advanced 4 2 1 Reference.half = Returned q0 /\
    constructed q0 /\
    0 <= index q0 < delay q0 /\
    Z.of_nat
      (plan_runs
         (p (fold_left spgram_push
               [[Reference.unit_sample; Reference.unit_sample];
                [Reference.nan_sample]]
               (spgram_reset q0))))
    = Z.of_nat (plan_runs (p q0)) + 3 / delay q0.
Proof.
  destruct reference_fresh as [q0 Hq0]. exists q0.
  assert (Hc : constructed q0) by exact (reference_constructed q0 [] Hq0).
  destruct (C3_one_transform_per_stride q0 Hc) as (Hi & _ & Hn & _).
  split; [exact Hq0|]. split; [exact Hc|]. split; [exact Hi|].
  exact (proj1 (Hn [[Reference.unit_sample; Reference.unit_sample];
                    [Reference.nan_sample]])).
Defined.

Lemma C4_configuration_error_iff_witness :
  ~ rejected 4 2 1 Reference.half /\
  succeeds (spgram_create_advanced (P := Reference.platform)
              4 2 1 Reference.half) /\
  rejected 1 0 1 Reference.half /\
  ConfigurationError (spgram_create_advanced (P := Reference.platform)
                        1 0 1 Reference.half).
Proof.
  assert (Hok : ~ rejected 4 2 1 Reference.half).
  { unfold rejected. vm_compute.
    intros [?|[?|[?|[?|?]]]]; discriminate. }
  assert (Hbad : rejected 1 0 1 Reference.half).
  { unfold rejected. left. lia. }
  split; [exact Hok|]. split; [|split; [exact Hbad|]].
  - apply (proj1 (proj2 (C4_configuration_error_iff
                           (P := Reference.platform)
                           4 2 1 Reference.half))). exact Hok.
  - apply (proj1 (C4_configuration_error_iff
                    (P := Reference.platform) 1 0 1 Reference.half)).
    exact Hbad.
Defined.

Lemma C5_execute_before_first_transform_witness :
  exists q0 : spgram (P := Reference.platform),
    spgram_create_advanced 4 2 1 Reference.half = Returned q0 /\
    length (replicate 4 f_nan) = Z.to_nat (nfft q0) /\
    num_windows q0 = 0 /\
    constructed q0 /\
    Z.of_nat (length (A := cfloat) []) < delay q0 /\
    snd (spgram_execute q0 (replicate 4 f_nan))
    = replicate (Z.to_nat (nfft q0)) f_zero /\
    snd (spgram_execute (spgram_push (spgram_reset q0) [])
           (replicate 4 f_nan))
    = replicate (Z.to_nat (nfft q0)) f_zero.
Proof.
  destruct reference_fresh as [q0 Hq0]. exists q0.
  pose proof (create_advanced_returned _ _ _ _ _ Hq0)
    as (_ & En & _ & Ed & _ & Ew & _).
  assert (Hl : length (replicate 4 f_nan) = Z.to_nat (nfft q0))
    by (rewrite En; reflexivity).
  assert (Hc : constructed q0) by exact (reference_constructed q0 [] Hq0).
  assert (Hd : Z.of_nat (length (A := cfloat) []) < delay q0)
    by (rewrite Ed; reflexivity).
  destruct (C5_execute_before_first_transform q0 (replicate 4 f_nan) Hl)
    as (Hzero & _ & _ & Hquiet).
  split; [exact Hq0|]. split; [exact Hl|]. split; [exact Ew|].
  split; [exact Hc|]. split; [exact Hd|].
  split; [exact (Hzero Ew)|].
  exact (proj2 (Hquiet Hc [] Hd)).
Defined.

Lemma C6_transform_input_padding_witness :
  exists q0 : spgram (P := Reference.platform),
    spgram_create_advanced 4 2 1 Reference.half = Returned q0 /\
    constructed (run q0 [op_push [Reference.unit_sample]; op_reset]) /\
    x (run q0 [op_push [Reference.unit_sample]; op_reset]) !! 3%nat
    = Some (cfloat_of_float f_zero).
Proof.
  destruct reference_fresh as [q0 Hq0]. exists q0.
  set (ops := [op_push [Reference.unit_sample]; op_reset]).
  pose proof (create_advanced_returned _ _ _ _ _ Hq0)
    as (_ & En & EM & _).
  destruct (run_setup q0 ops) as (En' & EM' & _).
  assert (Hc : constructed (run q0 ops))
    by exact (reference_constructed q0 ops Hq0).
  split; [exact Hq0|]. split; [exact Hc|].
  apply (proj1 (C6_transform_input_padding (run q0 ops) Hc)).
  rewrite En', EM', En, EM. cbn. lia.
Defined.

Lemma C8_psd_never_negative_witness :
  exists q0 : spgram (P := Reference.platform),
    spgram_create_advanced 4 2 1 Reference.half = Returned q0 /\
    (forall z : cfloat, nan_or_nonneg (@cabsf Reference.platform z)) /\
    constructed (run q0 [op_push [Reference.unit_sample]]) /\
    is_binary32 (alpha (run q0 [op_push [Reference.unit_sample]])) /\
    plan_runs (p (run q0 [op_push [Reference.unit_sample]])) <> 0%nat /\
    forall (k : nat) (v : float),
      psd (run q0 [op_push [Reference.unit_sample]]) !! k = Some v ->
      nan_or_nonneg v.
Proof.
  destruct reference_fresh as [q0 Hq0]. exists q0.
  set (ops := [op_push [Reference.unit_sample]]).
  pose proof (create_advanced_returned _ _ _ _ _ Hq0)
    as (_ & _ & _ & _ & Ea & _).
  destruct (run_setup q0 ops) as (_ & _ & _ & Ea' & _).
  assert (Hc : constructed (run q0 ops))
    by exact (reference_constructed q0 ops Hq0).
  assert (Hv : is_binary32 (alpha (run q0 ops)))
    by (rewrite Ea', Ea; reflexivity).
  assert (Hr : plan_runs (p (run q0 ops)) <> 0%nat).
  { pose proof reference_unit_stride as Hrun.
    unfold Reference.first_stride in Hrun. rewrite Hq0 in Hrun.
    injection Hrun as _ Hruns.
    change (run q0 ops)
      with (spgram_push_sample q0 Reference.unit_sample).
    rewrite Hruns. discriminate. }
  split; [exact Hq0|]. split; [exact reference_cabsf_nonneg|].
  split; [exact Hc|]. split; [exact Hv|]. split; [exact Hr|].
  exact (C8_psd_never_negative (run q0 ops) reference_cabsf_nonneg Hc Hv Hr).
Defined.

Lemma C10_execute_read_only_witness :
  exists q0 : spgram (P := Reference.platform),
    spgram_create_advanced 4 2 1 Reference.half = Returned q0 /\
    fst (spgram_execute q0 (replicate 4 f_nan)) = q0 /\
    snd (spgram_execute (fst (spgram_execute q0 (replicate 4 f_nan)))
           (replicate 4 f_one)) !! 0%nat
    = snd (spgram_execute q0 (replicate 4 f_nan)) !! 0%nat.
Proof.
  destruct reference_fresh as [q0 Hq0]. exists q0.
  pose proof (create_advanced_returned _ _ _ _ _ Hq0) as (_ & En & _).
  destruct (C10_execute_read_only q0 (replicate 4 f_nan) (replicate 4 f_one))
    as (Hfst & Hsame & _).
  split; [exact Hq0|]. split; [exact Hfst|].
  apply Hsame; [reflexivity|]. rewrite En. cbn. lia.
Defined.

Lemma C9_reset_restores_first_transform_witness :
  exists q0 : spgram (P := Reference.platform),
    let q := run q0 [op_push [Reference.unit_sample; Reference.nan_sample];
                     op_execute (replicate 4 f_nan)] in
    let q' := spgram_push (spgram_reset q) [Reference.unit_sample] in
    is_uint 4 /\ is_uint 2 /\ is_uint 1 /\
    spgram_create_advanced 4 2 1 Reference.half = Returned q0 /\
    Z.of_nat (length [Reference.unit_sample]) = 1 /\
    windowcf_clear (buffer q) = buffer q0 /\
    num_windows (spgram_reset q) = 0 /\
    w (spgram_reset q) = w q0 /\
    num_windows q' = 1 /\
    psd q' = psd (spgram_push q0 [Reference.unit_sample]).
Proof.
  destruct reference_fresh as [q0 Hq0]. exists q0.
  set (ops := [op_push [Reference.unit_sample; Reference.nan_sample];
               op_execute (replicate 4 f_nan)]).
  intros q q'.
  assert (H4 : is_uint 4) by uint_range.
  assert (H2 : is_uint 2) by uint_range.
  assert (H1 : is_uint 1) by uint_range.
  assert (Hlen : Z.of_nat (length [Reference.unit_sample]) = 1)
    by reflexivity.
  assert (Hclear : windowcf_clear (buffer q) = buffer q0).
  { subst q.
    rewrite (run_buffer_cleared (P := Reference.platform)
               reference_clear_push reference_clear_clear).
    destruct (create_advanced_arrays _ _ _ _ _ Hq0)
      as (_ & _ & _ & _ & _ & ->).
    apply reference_clear_clear. }
  destruct (C9_reset_restores_first_transform
              4 2 1 Reference.half q0 ops H4 H2 H1 Hq0)
    as ((_ & _ & Hnw) & _ & (_ & _ & _ & _ & Hw) & Hpush).
  destruct (Hpush [Reference.unit_sample] Hlen)
    as (Hone & _ & _ & _ & Hsame).
  destruct (Hsame Hclear) as (_ & _ & Hpsd & _).
  repeat (split; [assumption|]). exact Hpsd.
Defined.

(** * Further properties of the code *)

(** ** Construction *)

Section FurtherConstruction.
Context `{P : Platform}.

(** X1. The constructor fills all [M] window coefficients: cell [i] holds
    [hamming(i, M) / (float)M] with a zero imaginary part, and no later
    call changes the window. *)
Theorem X1_window_coefficients :
  forall (_nfft _m _delay : Z) (_alpha : float) (q0 : spgram)
         (ops : list operation) (i : nat),
    spgram_create_advanced _nfft _m _delay _alpha = Returned q0 ->
    (i < Z.to_nat _m)%nat ->
    length (w (run q0 ops)) = Z.to_nat _m /\
    w (run q0 ops) !! i
    = Some (fdiv (hamming (Z.of_nat i) _m) (float_of_int _m), f_zero).
Proof.
  intros _nfft _m _delay _alpha q0 ops i Hq Hi.
  destruct (run_setup q0 ops) as (_ & _ & _ & _ & -> & _).
  destruct (create_advanced_arrays _ _ _ _ _ Hq) as (_ & _ & Hlen & _).
  split; [exact Hlen|].
  unfold spgram_create_advanced in Hq.
  destruct (_nfft <? 2); [discriminate|].
  destruct (_m >? _nfft); [discriminate|].
  destruct (_delay =? 0); [discriminate|].
  destruct (fleb _alpha f_zero || fltb f_one _alpha); [discriminate|].
  injection Hq as <-. cbn [w spgram_reset set_index set_num_windows set_buffer].
  rewrite (for_loop_fill_lookup
             (fun i => cfloat_of_float
                         (fdiv (hamming (Z.of_nat i) _m) (float_of_int _m)))).
  destruct (decide (i < Z.to_nat _m)%nat); [|lia].
  destruct (lookup_lt_is_Some_2 (malloc uninit_cfloat _m) i) as [v ->];
    [rewrite malloc_length; exact Hi|reflexivity].
Qed.

(** X2. The object the constructor returns is in the reset state whatever
    the allocated memory held: the [N] cells of the transform input are
    zero, both counters are 0, the plan has not been executed, the buffer
    is the cleared new buffer of capacity [M], and the configuration is the
    one given. *)
Theorem X2_fresh_object :
  forall (_nfft _m _delay : Z) (_alpha : float) (q0 : spgram),
    spgram_create_advanced _nfft _m _delay _alpha = Returned q0 ->
    x q0 = replicate (Z.to_nat _nfft) (f_zero, f_zero) /\
    index q0 = 0 /\ num_windows q0 = 0 /\
    p q0 = {| plan_nfft := _nfft; plan_runs := 0 |} /\
    buffer q0 = windowcf_clear (windowcf_create _m) /\
    length (X q0) = Z.to_nat _nfft /\ length (psd q0) = Z.to_nat _nfft /\
    nfft q0 = _nfft /\ M q0 = _m /\ delay q0 = _delay /\ alpha q0 = _alpha.
Proof.
  intros _nfft _m _delay _alpha q0 Hq.
  destruct (create_advanced_arrays _ _ _ _ _ Hq)
    as (Hx & HX & _ & Hpsd & Hpl & Hb).
  destruct (create_advanced_returned _ _ _ _ _ Hq)
    as (_ & En & EM & Ed & Ea & Ew & Ei & Er).
  repeat split; try assumption.
  destruct (p q0) as [pn pr]. cbn in Hpl, Er. congruence.
Qed.

(** X3. The simple constructor succeeds exactly for transform sizes of at
    least 8 with an accepted averaging factor: below 8 the derived stride
    [N/8] is 0, and for [2 <= N < 8] the call ends on the stride message.
    On success the window length is [N/4] and the stride [N/8]. *)
Theorem X3_simple_constructor :
  forall (_nfft : Z) (_alpha : float),
    (succeeds (spgram_create _nfft _alpha) <->
     8 <= _nfft /\ alpha_accepted _alpha) /\
    (2 <= _nfft < 8 ->
     spgram_create _nfft _alpha
     = Exited 1
         "error: spgram_create_advanced(), delay must be greater than zero") /\
    (forall q : spgram,
        spgram_create _nfft _alpha = Returned q ->
        nfft q = _nfft /\ M q = _nfft / 4 /\ delay q = _nfft / 8 /\
        1 <= delay q /\ 2 * delay q <= M q /\ 4 * M q <= nfft q).
Proof.
  intros _nfft _alpha.
  assert (Hsmall : 2 <= _nfft < 8 -> _nfft / 8 = 0)
    by (intros H; apply Z.div_small; lia).
  assert (Hbig : 8 <= _nfft ->
                 1 <= _nfft / 8 /\ 2 * (_nfft / 8) <= _nfft / 4 /\
                 4 * (_nfft / 4) <= _nfft).
  { intros H. pose proof (Z.div_mod _nfft 8 ltac:(lia)).
    pose proof (Z.mod_pos_bound _nfft 8 ltac:(lia)).
    pose proof (Z.div_mod _nfft 4 ltac:(lia)).
    pose proof (Z.mod_pos_bound _nfft 4 ltac:(lia)). lia. }
  split; [|split].
  - unfold spgram_create.
    destruct (create_advanced_cases _nfft (_nfft / 4) (_nfft / 8) _alpha)
      as [[Hr [msg Hm]]|[Hn Hs]]; unfold rejected, alpha_accepted in *.
    + split.
      * intros [q Hq]. congruence.
      * intros [H8 [H0 H1]]. exfalso. specialize (Hbig H8).
        destruct Hr as [?|[?|[?|[?|?]]]]; try lia; congruence.
    + split; [intros _|intros _; exact Hs].
      assert (H2 : 2 <= _nfft) by lia.
      split.
      * destruct (Z_lt_le_dec _nfft 8) as [Hlt|]; [|assumption].
        exfalso. apply Hn. right. right. left. apply Hsmall. lia.
      * destruct (fleb _alpha f_zero), (fltb f_one _alpha); tauto.
  - intros H. unfold spgram_create, spgram_create_advanced.
    rewrite (Hsmall H).
    destruct (Z.ltb_spec _nfft 2); [lia|].
    destruct (Z.gtb_spec (_nfft / 4) _nfft) as [Hgt|]; [|reflexivity].
    exfalso. pose proof (Z.div_le_upper_bound _nfft 4 _nfft). lia.
  - intros q Hq. unfold spgram_create in Hq.
    destruct (create_advanced_returned _ _ _ _ _ Hq)
      as (Hr & -> & -> & -> & _).
    unfold rejected in Hr.
    assert (H8 : 8 <= _nfft).
    { destruct (Z_lt_le_dec _nfft 8) as [Hlt|]; [|assumption].
      exfalso. apply Hr. destruct (Z_lt_le_dec _nfft 2); [left; lia|].
      right. right. left. apply Hsmall. lia. }
    specialize (Hbig H8). tauto.
Qed.

(** X4. A NaN averaging factor passes the validation, since both
    comparisons are false on NaN; every value the validation lets through
    is NaN or positive and finite, and with a NaN factor every blended PSD
    value is NaN. *)
Theorem X4_nan_alpha_is_accepted :
  forall (_nfft _m _delay : Z),
    2 <= _nfft -> _m <= _nfft -> _delay <> 0 ->
    succeeds (spgram_create_advanced _nfft _m _delay S754_nan) /\
    (forall (a : float) (q : spgram),
        spgram_create_advanced _nfft _m _delay a = Returned q ->
        a = S754_nan \/ exists m e, a = S754_finite false m e) /\
    (forall old mag : float, blend S754_nan old mag = S754_nan).
Proof.
  intros _nfft _m _delay Hn Hm Hd. split; [|split].
  - destruct (create_advanced_cases _nfft _m _delay S754_nan)
      as [[Hr _]|[_ Hs]]; [|exact Hs].
    exfalso. unfold rejected in Hr. cbn in Hr.
    destruct Hr as [?|[?|[?|[?|?]]]]; try lia; discriminate.
  - intros a q Hq.
    destruct (create_advanced_returned _ _ _ _ _ Hq) as (Hr & _).
    unfold rejected in Hr.
    destruct a as [[]|[]| |[] m e]; cbn in Hr; try tauto.
    right. eauto.
  - intros old mag. reflexivity.
Qed.

(** X5. Nothing that can be called on a constructed object changes its
    configuration, its window or the size of its arrays: after any
    sequence of pushes, resets and queries the four parameters are those
    given to the constructor, the transform input, the transform output
    and the PSD have [N] cells and the window has [M]. *)
Theorem X5_configuration_is_immutable :
  forall (_nfft _m _delay : Z) (_alpha : float) (q0 : spgram)
         (ops : list operation),
    is_uint _nfft -> is_uint _m -> is_uint _delay ->
    spgram_create_advanced _nfft _m _delay _alpha = Returned q0 ->
    let q := run q0 ops in
    nfft q = _nfft /\ M q = _m /\ delay q = _delay /\ alpha q = _alpha /\
    w q = w q0 /\ plan_nfft (p q) = _nfft /\
    length (x q) = Z.to_nat _nfft /\ length (X q) = Z.to_nat _nfft /\
    length (psd q) = Z.to_nat _nfft /\ length (w q) = Z.to_nat _m.
Proof.
  intros _nfft _m _delay _alpha q0 ops Hn Hm Hd Hq q.
  destruct (create_advanced_returned _ _ _ _ _ Hq)
    as (_ & En & EM & Ed & Ea & _).
  pose proof (run_consistent q0 ops
                (create_advanced_consistent _ _ _ _ _ Hn Hm Hd Hq)) as Hc.
  destruct (run_setup q0 ops) as (En' & EM' & Ed' & Ea' & Ew' & Ep').
  fold q in Hc, En', EM', Ed', Ea', Ew', Ep'.
  rewrite <- En, <- EM, <- Ed, <- Ea, <- En', <- EM'.
  repeat split; try congruence; apply Hc.
Qed.

End FurtherConstruction.

(** ** Push *)

Section FurtherPush.
Context `{P : Platform}.

(** X6. How the samples are split over calls does not matter: pushing
    the blocks one call after the other leaves the object that one call
    with their concatenation leaves, field by field. *)
Theorem X6_push_in_pieces :
  forall (q : spgram) (calls : list (list cfloat)) (xs ys : list cfloat),
    fold_left spgram_push calls q = spgram_push q (concat calls) /\
    spgram_push (spgram_push q xs) ys = spgram_push q (xs ++ ys).
Proof.
  intros q calls xs ys. split; [apply push_concat|].
  symmetry. apply push_app.
Qed.

Lemma push_sample_buffer (q : spgram) (c : cfloat) :
  buffer (spgram_push_sample q c) = windowcf_push (buffer q) c.
Proof.
  rewrite push_sample_unfold.
  destruct (index (arrive q c) =? delay q); [|reflexivity].
  pose proof (transform_fields (arrive q c)) as (_ & _ & _ & _ & Hb & _).
  exact Hb.
Qed.

(** X7. Every pushed sample goes into the window buffer, in order and
    once, whether or not a transform runs on it: the transform reads the
    buffer and does not change it. *)
Theorem X7_buffer_receives_every_sample :
  forall (q : spgram) (_x : list cfloat),
    buffer (spgram_push q _x) = fold_left windowcf_push _x (buffer q).
Proof.
  intros q _x. revert q. induction _x as [|c xs IH]; intros q; [reflexivity|].
  change (spgram_push q (c :: xs))
    with (spgram_push (spgram_push_sample q c) xs).
  rewrite IH, push_sample_buffer. reflexivity.
Qed.

(** X8. A push that does not bring the stride counter to [D] only feeds
    the buffer and counts: the transform input, the transform output, the
    PSD, the transform count and the plan are left as they were. *)
Theorem X8_push_below_stride :
  forall (q : spgram) (_x : list cfloat),
    constructed q ->
    index q + Z.of_nat (length _x) < delay q ->
    let q' := spgram_push q _x in
    index q' = index q + Z.of_nat (length _x) /\
    x q' = x q /\ X q' = X q /\ psd q' = psd q /\
    num_windows q' = num_windows q /\ p q' = p q.
Proof.
  intros q _x Hc Hlt q'. subst q'.
  rewrite (push_quiet q _x (constructed_consistent q Hc) Hlt).
  repeat split.
Qed.

Lemma uint_add_l (a b : Z) : uint (uint a + b) = uint (a + b).
Proof. unfold uint. apply Z.add_mod_idemp_l. discriminate. Qed.

Lemma push_windows (q : spgram) (xs : list cfloat) :
  consistent q ->
  num_windows (spgram_push q xs)
  = uint (num_windows q + (index q + Z.of_nat (length xs)) / delay q).
Proof.
  revert q. induction xs as [|c xs IH]; intros q Hq.
  - pose proof (cons_index q Hq). cbn [spgram_push fold_left length].
    rewrite Z.add_0_r, Z.div_small, Z.add_0_r by lia.
    symmetry. apply uint_small, (cons_windows q Hq).
  - pose proof (cons_index q Hq) as Hi. pose proof (cons_delay q Hq) as Hd.
    change (spgram_push q (c :: xs))
      with (spgram_push (spgram_push_sample q c) xs).
    rewrite (IH _ (push_sample_consistent q c Hq)).
    destruct (push_sample_setup q c) as (_ & _ & -> & _).
    rewrite length_cons, Nat2Z.inj_succ.
    destruct (push_sample_cases q c Hq) as [[He ->]|[Hlt ->]].
    + pose proof (transform_fields (arrive q c))
        as (_ & _ & _ & _ & _ & _ & _ & _ & _ & _ & Ti & Tw).
      cbv zeta in Ti, Tw. rewrite Ti, Tw.
      change (num_windows (arrive q c)) with (num_windows q).
      rewrite uint_add_l, Z.add_0_l.
      replace (index q + Z.succ (Z.of_nat (length xs)))
        with (Z.of_nat (length xs) + 1 * delay q) by lia.
      rewrite Z.div_add by lia. f_equal. lia.
    + rewrite arrive_index by exact Hq.
      change (num_windows (arrive q c)) with (num_windows q).
      f_equal. f_equal. f_equal. lia.
Qed.

(** X9. After [n] samples pushed since a reset the transform count is
    [floor(n / D)] reduced modulo 2^32; it is non-zero, so that the query
    reports the PSD, as soon as [D] samples and as long as fewer than
    [D * 2^32] samples have been pushed. *)
Theorem X9_transform_count_after_reset :
  forall (q : spgram) (_x : list cfloat),
    constructed q ->
    let n := Z.of_nat (length _x) in
    let q' := spgram_push (spgram_reset q) _x in
    num_windows q' = (n / delay q) mod UINT_MODULUS /\
    (delay q <= n < delay q * UINT_MODULUS -> num_windows q' <> 0).
Proof.
  intros q _x Hc n q'.
  pose proof (constructed_consistent q Hc) as Hq.
  pose proof (cons_delay q Hq) as Hd.
  assert (E : num_windows q' = (n / delay q) mod UINT_MODULUS).
  { subst q'. rewrite (push_windows _ _ (reset_consistent q Hq)).
    reflexivity. }
  split; [exact E|].
  intros Hn. rewrite E, Z.mod_small.
  - pose proof (Z.div_le_lower_bound n (delay q) 1). lia.
  - split; [apply Z.div_pos; lia|].
    apply Z.div_lt_upper_bound; lia.
Qed.

(** X10. When a sample completes a stride, cell [k] of the transform
    input, for every [k] below [M], receives the product of cell [k] of the
    buffer snapshot, taken after that sample went in, and window
    coefficient [k]; both reads are inside their arrays. *)
Theorem X10_window_is_applied :
  forall (q : spgram) (c : cfloat) (k : nat),
    constructed q ->
    index q + 1 = delay q ->
    (k < Z.to_nat (M q))%nat ->
    exists wk : cfloat,
      w q !! k = Some wk /\
      x (spgram_push_sample q c) !! k
      = Some (cmulf (windowcf_read (windowcf_push (buffer q) c) k) wk).
Proof.
  intros q c k Hc Hfire Hk.
  pose proof (constructed_consistent q Hc) as Hq.
  destruct (lookup_lt_is_Some_2 (w q) k) as [wk Hw].
  { rewrite (cons_w q Hq). exact Hk. }
  exists wk. split; [exact Hw|].
  destruct (push_sample_cases q c Hq) as [[_ ->]|[Hlt _]]; [|lia].
  pose proof (transform_fields (arrive q c))
    as (_ & _ & _ & _ & _ & _ & Hx & _).
  cbv zeta in Hx. rewrite Hx, windowed_input_lookup.
  change (M (arrive q c)) with (M q).
  change (x (arrive q c)) with (x q).
  change (w (arrive q c)) with (w q).
  change (buffer (arrive q c)) with (windowcf_push (buffer q) c).
  destruct (decide (k < Z.to_nat (M q))%nat); [|lia].
  destruct (lookup_lt_is_Some_2 (x q) k) as [v ->].
  { rewrite (cons_x q Hq). pose proof (cons_M q Hq). lia. }
  unfold aget. rewrite Hw. reflexivity.
Qed.

(** X11. The transform count wraps: when it holds [UINT_MAX] and a
    sample completes a stride, the count becomes 0, and the query then
    writes zeros although a PSD has been accumulated. *)
Theorem X11_transform_count_wraps :
  forall (q : spgram) (c : cfloat) (_X : list float),
    consistent q ->
    num_windows q = UINT_MODULUS - 1 ->
    index q + 1 = delay q ->
    length _X = Z.to_nat (nfft q) ->
    num_windows (spgram_push_sample q c) = 0 /\
    snd (spgram_execute (spgram_push_sample q c) _X)
    = replicate (Z.to_nat (nfft q)) f_zero.
Proof.
  intros q c _X Hq Hmax Hfire Hlen.
  assert (Hz : num_windows (spgram_push_sample q c) = 0).
  { destruct (push_sample_cases q c Hq) as [[_ ->]|[Hlt _]]; [|lia].
    pose proof (transform_fields (arrive q c))
      as (_ & _ & _ & _ & _ & _ & _ & _ & _ & _ & _ & Tw).
    cbv zeta in Tw. rewrite Tw.
    change (num_windows (arrive q c)) with (num_windows q).
    rewrite Hmax. reflexivity. }
  split; [exact Hz|].
  destruct (push_sample_setup q c) as (En & _).
  rewrite <- En. apply execute_zeros; [exact Hz|]. rewrite En. exact Hlen.
Qed.

Lemma run_x_outside (q : spgram) (ops : list operation) (k : nat) :
  (Z.to_nat (M q) <= k)%nat -> x (run q ops) !! k = x q !! k.
Proof.
  revert q. induction ops as [|o ops IH]; intros q Hk; [reflexivity|].
  change (run q (o :: ops)) with (run (apply_operation q o) ops).
  destruct (apply_operation_setup q o) as (_ & EM & _).
  rewrite IH by (rewrite EM; exact Hk).
  destruct o as [xs| |out]; cbn [apply_operation].
  - apply push_x_outside. exact Hk.
  - reflexivity.
  - rewrite execute_object. reflexivity.
Qed.

(** X12. With the window length 0, which the constructor accepts, no
    sample ever reaches the transform: whatever is pushed, the transform
    input stays zero in all its cells. *)
Theorem X12_empty_window_ignores_samples :
  forall (_nfft _delay : Z) (_alpha : float) (q0 : spgram)
         (ops : list operation),
    spgram_create_advanced _nfft 0 _delay _alpha = Returned q0 ->
    x (run q0 ops) = replicate (Z.to_nat _nfft) (f_zero, f_zero).
Proof.
  intros _nfft _delay _alpha q0 ops Hq.
  destruct (create_advanced_arrays _ _ _ _ _ Hq) as (Hx & _).
  destruct (create_advanced_returned _ _ _ _ _ Hq) as (_ & _ & EM & _).
  transitivity (x q0); [|exact Hx]. apply list_eq. intros k.
  apply run_x_outside. rewrite EM. cbn. lia.
Qed.

End FurtherPush.

(** ** The query *)

Ltac split_ltb :=
  repeat match goal with
         | |- context [?a <? ?b] => destruct (Z.ltb_spec a b)
         end.

Lemma shift_index_cases (n i : Z) :
  n + n / 2 <= UINT_MODULUS -> 0 <= i < n ->
  shift_index n i = if i + n / 2 <? n then i + n / 2 else i + n / 2 - n.
Proof.
  intros Hn Hi. rewrite shift_index_in_range by assumption.
  assert (Hh : 0 <= n / 2 < n).
  { split; [apply Z.div_pos; lia|apply Z.div_lt_upper_bound; lia]. }
  destruct (Z.ltb_spec (i + n / 2) n) as [Hlt|Hge].
  - apply Z.mod_small. lia.
  - symmetry. apply (Z.mod_unique_pos _ _ 1); lia.
Qed.

Lemma shift_index_bound (n i : Z) : 0 < n -> 0 <= shift_index n i < n.
Proof. intros Hn. unfold shift_index. apply Z.mod_pos_bound. exact Hn. Qed.

Section FurtherExecute.
Context `{P : Platform}.

Lemma shifted_cell_exists (q : spgram) (i : nat) :
  consistent q ->
  (Z.to_nat (shift_index (nfft q) (Z.of_nat i)) < length (psd q))%nat.
Proof.
  intros Hq. pose proof (cons_nfft q Hq) as Hn.
  pose proof (shift_index_bound (nfft q) (Z.of_nat i) ltac:(lia)) as Hk.
  rewrite (cons_psd q Hq). lia.
Qed.

Lemma execute_cell (q : spgram) (_X : list float) (i : nat) :
  num_windows q <> 0 ->
  length _X = Z.to_nat (nfft q) ->
  (i < Z.to_nat (nfft q))%nat ->
  snd (spgram_execute q _X) !! i
  = Some (fmul (float_of_int 20)
            (log10f
               (fabsf
                  (aget f_nan (psd q)
                     (Z.to_nat (shift_index (nfft q) (Z.of_nat i))))))).
Proof.
  intros Hw Hlen Hi. rewrite execute_lookup.
  destruct (decide (i < Z.to_nat (nfft q))%nat); [|lia].
  destruct (lookup_lt_is_Some_2 _X i) as [o ->]; [lia|].
  cbn [fmap option_fmap option_map].
  destruct (Z.eqb_spec (num_windows q) 0); [contradiction|].
  reflexivity.
Qed.

(** X13. Whatever the transform size, the query reads the PSD inside
    the array: on a constructed object with a non-zero transform count,
    every output cell below [N] receives 20 times the [log10f] of the
    magnitude of an existing PSD cell, also when the sum [i + N/2] wraps. *)
Theorem X13_execute_reads_inside_psd :
  forall (q : spgram) (_X : list float) (i : nat),
    constructed q ->
    num_windows q <> 0 ->
    length _X = Z.to_nat (nfft q) ->
    (i < Z.to_nat (nfft q))%nat ->
    exists v : float,
      psd q !! Z.to_nat (shift_index (nfft q) (Z.of_nat i)) = Some v /\
      (Z.to_nat (shift_index (nfft q) (Z.of_nat i)) < length (psd q))%nat /\
      snd (spgram_execute q _X) !! i
      = Some (fmul (float_of_int 20) (log10f (fabsf v))).
Proof.
  intros q _X i Hc Hw Hlen Hi.
  pose proof (shifted_cell_exists q i (constructed_consistent q Hc)) as Hin.
  destruct (lookup_lt_is_Some_2 _ _ Hin) as [v Hv].
  exists v. split; [exact Hv|]. split; [exact Hin|].
  rewrite (execute_cell q _X i Hw Hlen Hi).
  unfold aget. rewrite Hv. reflexivity.
Qed.

(** X14. As long as [N + N/2] fits an [unsigned int], the output is a
    rearrangement of the PSD: every PSD bin [k] is shown at exactly one
    output position, [(k + N - N/2) mod N]. *)
Theorem X14_output_is_a_permutation :
  forall (q : spgram) (_X : list float) (k : Z),
    constructed q ->
    num_windows q <> 0 ->
    nfft q + nfft q / 2 <= UINT_MODULUS ->
    length _X = Z.to_nat (nfft q) ->
    0 <= k < nfft q ->
    let i := (k + (nfft q - nfft q / 2)) mod nfft q in
    0 <= i < nfft q /\
    shift_index (nfft q) i = k /\
    (forall j : Z,
        0 <= j < nfft q -> shift_index (nfft q) j = k -> j = i) /\
    exists v : float,
      psd q !! Z.to_nat k = Some v /\
      snd (spgram_execute q _X) !! Z.to_nat i
      = Some (fmul (float_of_int 20) (log10f (fabsf v))).
Proof.
  intros q _X k Hc Hw Hr Hlen Hk i.
  pose proof (constructed_consistent q Hc) as Hq.
  pose proof (cons_nfft q Hq) as Hn.
  assert (Hh : 0 <= nfft q / 2 < nfft q).
  { split; [apply Z.div_pos; lia|apply Z.div_lt_upper_bound; lia]. }
  assert (Hi : 0 <= i < nfft q) by (apply Z.mod_pos_bound; lia).
  assert (Ei : (k < nfft q / 2 /\ i = k + (nfft q - nfft q / 2)) \/
               (nfft q / 2 <= k /\ i = k - nfft q / 2)).
  { subst i. destruct (Z_lt_le_dec k (nfft q / 2)); [left|right]; split;
      try assumption.
    - apply Z.mod_small. lia.
    - symmetry. apply (Z.mod_unique_pos _ _ 1); lia. }
  clearbody i.
  assert (Es : shift_index (nfft q) i = k).
  { rewrite shift_index_cases by assumption.
    destruct (Z.ltb_spec (i + nfft q / 2) (nfft q));
      destruct Ei as [[Hlt ->]|[Hge ->]]; lia. }
  split; [exact Hi|]. split; [exact Es|]. split.
  - intros j Hj Ej. rewrite shift_index_cases in Ej by assumption.
    destruct (Z.ltb_spec (j + nfft q / 2) (nfft q));
      destruct Ei as [[Hlt ->]|[Hge ->]]; lia.
  - destruct (lookup_lt_is_Some_2 (psd q) (Z.to_nat k)) as [v Hv].
    { rewrite (cons_psd q Hq). lia. }
    exists v. split; [exact Hv|].
    rewrite (execute_cell q _X (Z.to_nat i) Hw Hlen ltac:(lia)).
    rewrite Z2Nat.id, Es by lia. unfold aget. rewrite Hv. reflexivity.
Qed.

(** X15. Where the bins land, as long as [N + N/2] fits an
    [unsigned int]: output position 0 shows bin [N/2], the zero-frequency
    bin is shown at position [N - N/2], and for an even [N] the shift is
    its own inverse. *)
Theorem X15_zero_frequency_in_the_middle :
  forall n i : Z,
    2 <= n -> n + n / 2 <= UINT_MODULUS -> 0 <= i < n ->
    shift_index n 0 = n / 2 /\
    shift_index n (n - n / 2) = 0 /\
    (Z.even n = true -> shift_index n (shift_index n i) = i) /\
    (Z.even n = false ->
     shift_index n (shift_index n i) = (i + (n - 1)) mod n).
Proof.
  intros n i Hn Hr Hi.
  assert (Hh : 1 <= n / 2 < n).
  { split; [apply Z.div_le_lower_bound; lia|].
    apply Z.div_lt_upper_bound; lia. }
  pose proof (shift_index_bound n i ltac:(lia)) as Hs.
  pose proof (Z.div_mod n 2 ltac:(lia)) as Hdm.
  split; [|split; [|split]].
  - rewrite shift_index_cases by lia.
    destruct (Z.ltb_spec (0 + n / 2) n); lia.
  - rewrite shift_index_cases by lia.
    destruct (Z.ltb_spec (n - n / 2 + n / 2) n); lia.
  - intros He. rewrite Zeven_bool_iff in He. apply Zeven_ex in He as [h Eh].
    assert (n / 2 = h) by (subst n; rewrite Z.mul_comm, Z.div_mul; lia).
    rewrite (shift_index_cases n (shift_index n i)) by lia.
    rewrite (shift_index_cases n i) by lia.
    split_ltb; lia.
  - intros Ho. rewrite <- Z.negb_odd in Ho. apply negb_false_iff in Ho.
    rewrite Zodd_bool_iff in Ho. apply Zodd_ex in Ho as [h Eh].
    assert (n / 2 = h).
    { subst n. rewrite Z.mul_comm, Z.div_add_l by lia.
      rewrite Z.div_small by lia. lia. }
    rewrite (shift_index_cases n (shift_index n i)) by lia.
    rewrite (shift_index_cases n i) by lia.
    destruct (Z.eq_dec i 0) as [->|Hne].
    + rewrite Z.add_0_l, (Z.mod_small (n - 1)) by lia. split_ltb; lia.
    + rewrite <- (Z.mod_unique_pos (i + (n - 1)) n 1 (i - 1)) by lia.
      split_ltb; lia.
Qed.

(** X16. The query writes [N] cells and no more: the caller's array keeps
    its length and every cell from position [N] on keeps its value. *)
Theorem X16_execute_writes_n_cells :
  forall (q : spgram) (_X : list float) (i : nat),
    length (snd (spgram_execute q _X)) = length _X /\
    ((Z.to_nat (nfft q) <= i)%nat ->
     snd (spgram_execute q _X) !! i = _X !! i).
Proof.
  intros q _X i. split.
  - unfold spgram_execute. destruct (num_windows q =? 0); cbn [snd].
    + apply (for_loop_update_length (fun _ _ => f_zero)).
    + apply (for_loop_update_length
               (fun i _ =>
                  fmul (float_of_int 20)
                    (log10f (fabsf (aget f_nan (psd q)
                       (Z.to_nat (shift_index (nfft q) (Z.of_nat i)))))))).
  - intros Hi. rewrite execute_lookup.
    destruct (decide (i < Z.to_nat (nfft q))%nat); [lia|reflexivity].
Qed.

End FurtherExecute.

(** ** The averaging factor 1 *)

Lemma shift_out_23 (m : positive) :
  SpecFloat.iter_pos shr_1 23
    {| shr_m := Zpos (8388608 * m); shr_r := false; shr_s := false |}
  = {| shr_m := Zpos m; shr_r := false; shr_s := false |}.
Proof. reflexivity. Qed.

Lemma digits_times_2_23 (m : positive) :
  Zpos (digits2_pos (8388608 * m)) = Zpos (digits2_pos m) + 23.
Proof.
  change (8388608 * m)%positive
    with (m~0~0~0~0~0~0~0~0~0~0~0~0~0~0~0~0~0~0~0~0~0~0~0)%positive.
  cbn [digits2_pos]. rewrite !Pos2Z.inj_succ. lia.
Qed.

Lemma fmul_one_finite (s : bool) (m : positive) (e : Z) :
  is_binary32 (S754_finite s m e) ->
  fmul f_one (S754_finite s m e) = S754_finite s m e.
Proof.
  unfold is_binary32, valid_binary, bounded, canonical_mantissa.
  intros H. apply andb_prop in H as [Hc Hb]. apply Z.eqb_eq in Hc.
  unfold fmul, f_one, SFmul, binary_round_aux.
  change (xorb false s) with s.
  assert (Hf : fexp FLT_PREC FLT_EMAX
                 (Zdigits2 (Zpos (8388608 * m)) + (-23 + e)) = e).
  { unfold Zdigits2. rewrite digits_times_2_23.
    replace (Zpos (digits2_pos m) + 23 + (-23 + e))
      with (Zpos (digits2_pos m) + e) by lia. exact Hc. }
  unfold shr_fexp at 1. rewrite Hf.
  replace (e - (-23 + e)) with 23 by lia.
  unfold shr_record_of_loc, shr. rewrite shift_out_23.
  cbn [shr_m loc_of_shr_record round_nearest_even].
  unfold shr_fexp. replace (-23 + e + 23) with e by lia.
  unfold Zdigits2. rewrite Hc, Z.sub_diag. cbn [shr shr_record_of_loc shr_m].
  rewrite Hb. reflexivity.
Qed.

Lemma fmul_one_exact (f : float) : is_binary32 f -> fmul f_one f = f.
Proof.
  destruct f as [s|s| |s m e]; try reflexivity.
  apply fmul_one_finite.
Qed.

(** With the factor 1 the average keeps nothing of a finite old value
    and returns the new magnitude, bit for bit; an old value that is
    infinite or NaN turns the result into NaN, as [0 * inf] is NaN. *)
Lemma blend_one (old mag : float) :
  is_binary32 mag -> nan_or_nonneg mag ->
  blend f_one old mag
  = match old with
    | S754_zero _ | S754_finite _ _ _ => mag
    | S754_infinity _ | S754_nan => S754_nan
    end.
Proof.
  intros Hv Hn. unfold blend. rewrite (fmul_one_exact mag Hv).
  change (fsub f_one f_one) with (S754_zero false).
  destruct old as [[]|[]| |[] mo eo], mag as [[]|[]| |[] mm em];
    try contradiction; reflexivity.
Qed.

Section AlphaOne.
Context `{P : Platform}.

(** X17. With the averaging factor 1, a transform after the first one
    replaces a finite PSD cell by the new magnitude exactly, with no
    rounding and no trace of the old value, provided the magnitude is a
    binary32 value that is NaN or non-negative; a cell that held an
    infinity or NaN becomes NaN. *)
Theorem X17_alpha_one_keeps_no_history :
  forall (q : spgram) (c : cfloat) (k : nat) (old : float) (out : cfloat),
    constructed q ->
    alpha q = f_one ->
    index q + 1 = delay q ->
    num_windows q <> 0 ->
    psd q !! k = Some old ->
    X (spgram_push_sample q c) !! k = Some out ->
    is_binary32 (cabsf out) -> nan_or_nonneg (cabsf out) ->
    psd (spgram_push_sample q c) !! k
    = Some match old with
           | S754_zero _ | S754_finite _ _ _ => cabsf out
           | S754_infinity _ | S754_nan => S754_nan
           end.
Proof.
  intros q c k old out Hc Ha Hfire Hw Hold Hout Hv Hn.
  pose proof (constructed_consistent q Hc) as Hq.
  assert (Hk : (k < Z.to_nat (nfft q))%nat).
  { rewrite <- (cons_psd q Hq). apply lookup_lt_is_Some. eauto. }
  destruct (push_sample_cases q c Hq) as [[_ E]|[Hlt _]]; [|lia].
  rewrite E in *. clear E.
  pose proof (transform_fields (arrive q c))
    as (_ & _ & _ & _ & _ & _ & _ & HX & _).
  cbv zeta in HX. rewrite HX in Hout.
  rewrite transform_psd_lookup.
  change (nfft (arrive q c)) with (nfft q).
  change (psd (arrive q c)) with (psd q).
  change (num_windows (arrive q c)) with (num_windows q).
  change (alpha (arrive q c)) with (alpha q).
  destruct (decide (k < Z.to_nat (nfft q))%nat); [|lia].
  rewrite Hold. cbn [fmap option_fmap option_map].
  destruct (Z.eqb_spec (num_windows q) 0); [contradiction|].
  unfold magnitude, aget. rewrite Hout. cbn [default].
  rewrite Ha, blend_one by assumption. reflexivity.
Qed.

End AlphaOne.

(** ** The further properties at concrete inputs *)

Lemma reference_object (_nfft _m _delay : Z) (_alpha : float) :
  ~ rejected _nfft _m _delay _alpha ->
  exists q0 : spgram (P := Reference.platform),
    spgram_create_advanced _nfft _m _delay _alpha = Returned q0.
Proof.
  intros Hn.
  destruct (create_advanced_cases (P := Reference.platform)
              _nfft _m _delay _alpha) as [[Hr _]|[_ Hq]];
    [contradiction|exact Hq].
Qed.

Lemma reference_stride_three :
  exists q0 : spgram (P := Reference.platform),
    spgram_create_advanced 4 2 3 Reference.half = Returned q0.
Proof.
  apply reference_object. unfold rejected. vm_compute.
  intros [?|[?|[?|[?|?]]]]; discriminate.
Qed.

Lemma reference_empty_window :
  exists q0 : spgram (P := Reference.platform),
    spgram_create_advanced 4 0 1 Reference.half = Returned q0.
Proof.
  apply reference_object. unfold rejected. vm_compute.
  intros [?|[?|[?|[?|?]]]]; discriminate.
Qed.

Lemma reference_alpha_one :
  exists q0 : spgram (P := Reference.platform),
    spgram_create_advanced 4 2 1 f_one = Returned q0.
Proof.
  apply reference_object. unfold rejected. vm_compute.
  intros [?|[?|[?|[?|?]]]]; discriminate.
Qed.

Lemma constructed_by (P : Platform) (_nfft _m _delay : Z) (_alpha : float)
    (q0 : spgram) (ops : list operation) :
  0 <= _nfft < 100 -> 0 <= _m < 100 -> 0 <= _delay < 100 ->
  spgram_create_advanced _nfft _m _delay _alpha = Returned q0 ->
  constructed (run q0 ops).
Proof.
  intros Hn Hm Hd Hq0. exists _nfft, _m, _delay, _alpha, q0, ops.
  do 3 (split; [uint_range|]). split; [exact Hq0|reflexivity].
Qed.

(** The fresh reference object after one sample: one transform has
    run. *)
Lemma reference_after_one_sample (q0 : spgram (P := Reference.platform)) :
  spgram_create_advanced 4 2 1 Reference.half = Returned q0 ->
  let q := run q0 [op_push [Reference.unit_sample]] in
  constructed q /\ num_windows q = 1 /\ nfft q = 4 /\
  length (replicate 4 f_nan) = Z.to_nat (nfft q).
Proof.
  intros Hq0 q.
  assert (Hc : constructed q)
    by (apply (constructed_by _ 4 2 1 Reference.half); try lia; exact Hq0).
  destruct (create_advanced_returned _ _ _ _ _ Hq0)
    as (_ & En & _ & Ed & _ & Ew & Ei & _).
  assert (Hq0c : consistent q0).
  { apply (constructed_consistent q0).
    apply (constructed_by _ 4 2 1 Reference.half q0 []); try lia.
    exact Hq0. }
  destruct (push_setup q0 [Reference.unit_sample]) as (En' & _).
  assert (Hn : nfft q = 4) by (subst q; cbn [run fold_left apply_operation];
                               congruence).
  split; [exact Hc|]. split; [|split; [exact Hn|rewrite Hn; reflexivity]].
  subst q. cbn [run fold_left apply_operation].
  rewrite (push_windows q0 _ Hq0c), Ew, Ei, Ed. reflexivity.
Qed.

Lemma X1_window_coefficients_witness :
  exists q0 : spgram (P := Reference.platform),
    spgram_create_advanced 4 2 1 Reference.half = Returned q0 /\
    (1 < Z.to_nat 2)%nat /\
    w (run q0 [op_push [Reference.unit_sample]; op_reset]) !! 1%nat
    = Some (fdiv (@hamming Reference.platform (Z.of_nat 1) 2)
              (float_of_int 2), f_zero).
Proof.
  destruct reference_fresh as [q0 Hq0]. exists q0.
  assert (H1 : (1 < Z.to_nat 2)%nat) by (cbn; lia).
  split; [exact Hq0|]. split; [exact H1|].
  exact (proj2 (X1_window_coefficients 4 2 1 Reference.half q0
                  [op_push [Reference.unit_sample]; op_reset] 1%nat
                  Hq0 H1)).
Defined.

Lemma X2_fresh_object_witness :
  exists q0 : spgram (P := Reference.platform),
    spgram_create_advanced 4 2 1 Reference.half = Returned q0 /\
    x q0 = replicate (Z.to_nat 4) (f_zero, f_zero) /\
    index q0 = 0 /\ num_windows q0 = 0.
Proof.
  destruct reference_fresh as [q0 Hq0]. exists q0.
  destruct (X2_fresh_object 4 2 1 Reference.half q0 Hq0)
    as (Hx & Hi & Hw & _).
  repeat split; assumption.
Defined.

Lemma X3_simple_constructor_witness :
  8 <= 8 /\ alpha_accepted Reference.half /\ 2 <= 6 < 8 /\
  succeeds (spgram_create (P := Reference.platform) 8 Reference.half) /\
  spgram_create (P := Reference.platform) 6 Reference.half
  = Exited 1
      "error: spgram_create_advanced(), delay must be greater than zero".
Proof.
  assert (H8 : 8 <= 8) by lia.
  assert (Ha : alpha_accepted Reference.half) by (split; reflexivity).
  assert (H6 : 2 <= 6 < 8) by lia.
  split; [exact H8|]. split; [exact Ha|]. split; [exact H6|]. split.
  - apply (proj1 (X3_simple_constructor (P := Reference.platform)
                    8 Reference.half)). split; assumption.
  - exact (proj1 (proj2 (X3_simple_constructor (P := Reference.platform)
                           6 Reference.half)) H6).
Defined.

Lemma X4_nan_alpha_is_accepted_witness :
  2 <= 4 /\ 2 <= 4 /\ 1 <> 0 /\
  succeeds (spgram_create_advanced (P := Reference.platform)
              4 2 1 S754_nan).
Proof.
  assert (H1 : 2 <= 4) by lia. assert (H2 : 1 <> 0) by lia.
  split; [exact H1|]. split; [exact H1|]. split; [exact H2|].
  exact (proj1 (X4_nan_alpha_is_accepted (P := Reference.platform)
                  4 2 1 H1 H1 H2)).
Defined.

Lemma X5_configuration_is_immutable_witness :
  exists q0 : spgram (P := Reference.platform),
    is_uint 4 /\ is_uint 2 /\ is_uint 1 /\
    spgram_create_advanced 4 2 1 Reference.half = Returned q0 /\
    nfft (run q0 [op_push [Reference.unit_sample]; op_reset]) = 4 /\
    length (psd (run q0 [op_push [Reference.unit_sample]; op_reset]))
    = Z.to_nat 4.
Proof.
  destruct reference_fresh as [q0 Hq0]. exists q0.
  assert (H4 : is_uint 4) by uint_range.
  assert (H2 : is_uint 2) by uint_range.
  assert (H1 : is_uint 1) by uint_range.
  destruct (X5_configuration_is_immutable 4 2 1 Reference.half q0
              [op_push [Reference.unit_sample]; op_reset] H4 H2 H1 Hq0)
    as (Hn & _ & _ & _ & _ & _ & _ & _ & Hp & _).
  repeat (split; [assumption|]). exact Hp.
Defined.

Lemma X8_push_below_stride_witness :
  exists q0 : spgram (P := Reference.platform),
    spgram_create_advanced 4 2 3 Reference.half = Returned q0 /\
    constructed q0 /\
    index q0
    + Z.of_nat (length [Reference.unit_sample; Reference.nan_sample])
    < delay q0 /\
    psd (spgram_push q0 [Reference.unit_sample; Reference.nan_sample])
    = psd q0 /\
    num_windows (spgram_push q0 [Reference.unit_sample;
                                 Reference.nan_sample])
    = num_windows q0.
Proof.
  destruct reference_stride_three as [q0 Hq0]. exists q0.
  assert (Hc : constructed q0)
    by (apply (constructed_by _ 4 2 3 Reference.half q0 []); try lia;
        exact Hq0).
  destruct (create_advanced_returned _ _ _ _ _ Hq0)
    as (_ & _ & _ & Ed & _ & _ & Ei & _).
  assert (Hlt : index q0
                + Z.of_nat (length [Reference.unit_sample;
                                    Reference.nan_sample])
                < delay q0) by (rewrite Ei, Ed; reflexivity).
  destruct (X8_push_below_stride q0 _ Hc Hlt) as (_ & _ & _ & Hp & Hw & _).
  repeat (split; [assumption|]). exact Hw.
Defined.

Lemma X9_transform_count_after_reset_witness :
  exists q0 : spgram (P := Reference.platform),
    spgram_create_advanced 4 2 3 Reference.half = Returned q0 /\
    constructed q0 /\
    delay q0 <= Z.of_nat (length (replicate 7 Reference.unit_sample))
    < delay q0 * UINT_MODULUS /\
    num_windows (spgram_push (spgram_reset q0)
                   (replicate 7 Reference.unit_sample))
    = (7 / delay q0) mod UINT_MODULUS /\
    num_windows (spgram_push (spgram_reset q0)
                   (replicate 7 Reference.unit_sample)) <> 0.
Proof.
  destruct reference_stride_three as [q0 Hq0]. exists q0.
  assert (Hc : constructed q0)
    by (apply (constructed_by _ 4 2 3 Reference.half q0 []); try lia;
        exact Hq0).
  destruct (create_advanced_returned _ _ _ _ _ Hq0)
    as (_ & _ & _ & Ed & _).
  assert (Hr : delay q0
               <= Z.of_nat (length (replicate 7 Reference.unit_sample))
               < delay q0 * UINT_MODULUS)
    by (rewrite Ed; split; [discriminate|reflexivity]).
  destruct (X9_transform_count_after_reset q0
              (replicate 7 Reference.unit_sample) Hc) as (Hn & Hnz).
  split; [exact Hq0|]. split; [exact Hc|]. split; [exact Hr|].
  split; [exact Hn|exact (Hnz Hr)].
Defined.

Lemma X10_window_is_applied_witness :
  exists q0 : spgram (P := Reference.platform),
    spgram_create_advanced 4 2 1 Reference.half = Returned q0 /\
    constructed q0 /\ index q0 + 1 = delay q0 /\
    (1 < Z.to_nat (M q0))%nat /\
    exists wk : cfloat,
      w q0 !! 1%nat = Some wk /\
      x (spgram_push_sample q0 Reference.unit_sample) !! 1%nat
      = Some (@cmulf Reference.platform
                (windowcf_read
                   (windowcf_push (buffer q0) Reference.unit_sample) 1)
                wk).
Proof.
  destruct reference_fresh as [q0 Hq0]. exists q0.
  assert (Hc : constructed q0) by exact (reference_constructed q0 [] Hq0).
  destruct (create_advanced_returned _ _ _ _ _ Hq0)
    as (_ & _ & EM & Ed & _ & _ & Ei & _).
  assert (Hi : index q0 + 1 = delay q0) by (rewrite Ei, Ed; reflexivity).
  assert (Hk : (1 < Z.to_nat (M q0))%nat) by (rewrite EM; cbn; lia).
  split; [exact Hq0|]. split; [exact Hc|]. split; [exact Hi|].
  split; [exact Hk|].
  exact (X10_window_is_applied q0 Reference.unit_sample 1%nat Hc Hi Hk).
Defined.

Lemma X11_transform_count_wraps_witness :
  exists q0 : spgram (P := Reference.platform),
    let q := set_num_windows q0 (UINT_MODULUS - 1) in
    spgram_create_advanced 4 2 1 Reference.half = Returned q0 /\
    consistent q /\ num_windows q = UINT_MODULUS - 1 /\
    index q + 1 = delay q /\
    length (replicate 4 f_nan) = Z.to_nat (nfft q) /\
    num_windows (spgram_push_sample q Reference.unit_sample) = 0 /\
    snd (spgram_execute (spgram_push_sample q Reference.unit_sample)
           (replicate 4 f_nan))
    = replicate (Z.to_nat (nfft q)) f_zero.
Proof.
  destruct reference_fresh as [q0 Hq0]. exists q0. intros q.
  pose proof (constructed_consistent q0 (reference_constructed q0 [] Hq0))
    as Hq0c.
  destruct (create_advanced_returned _ _ _ _ _ Hq0)
    as (_ & En & _ & Ed & _ & _ & Ei & _).
  assert (Hq : consistent q).
  { constructor; try apply Hq0c. cbn. uint_range. }
  assert (Hmax : num_windows q = UINT_MODULUS - 1) by reflexivity.
  assert (Hi : index q + 1 = delay q)
    by (change (index q0 + 1 = delay q0); rewrite Ei, Ed; reflexivity).
  assert (Hl : length (replicate 4 f_nan) = Z.to_nat (nfft q))
    by (change (nfft q) with (nfft q0); rewrite En; reflexivity).
  destruct (X11_transform_count_wraps q Reference.unit_sample
              (replicate 4 f_nan) Hq Hmax Hi Hl) as (Hz & Hout).
  repeat (split; [assumption|]). exact Hout.
Defined.

Lemma X12_empty_window_ignores_samples_witness :
  exists q0 : spgram (P := Reference.platform),
    spgram_create_advanced 4 0 1 Reference.half = Returned q0 /\
    x (run q0 [op_push [Reference.unit_sample; Reference.nan_sample]])
    = replicate (Z.to_nat 4) (f_zero, f_zero).
Proof.
  destruct reference_empty_window as [q0 Hq0]. exists q0.
  split; [exact Hq0|].
  exact (X12_empty_window_ignores_samples 4 1 Reference.half q0 _ Hq0).
Defined.

Lemma X13_execute_reads_inside_psd_witness :
  exists q0 : spgram (P := Reference.platform),
    let q := run q0 [op_push [Reference.unit_sample]] in
    spgram_create_advanced 4 2 1 Reference.half = Returned q0 /\
    constructed q /\ num_windows q <> 0 /\
    length (replicate 4 f_nan) = Z.to_nat (nfft q) /\
    (3 < Z.to_nat (nfft q))%nat /\
    exists v : float,
      psd q !! Z.to_nat (shift_index (nfft q) (Z.of_nat 3)) = Some v /\
      snd (spgram_execute q (replicate 4 f_nan)) !! 3%nat
      = Some (fmul (float_of_int 20)
                (@log10f Reference.platform (fabsf v))).
Proof.
  destruct reference_fresh as [q0 Hq0]. exists q0. intros q.
  destruct (reference_after_one_sample q0 Hq0) as (Hc & Hw & Hn & Hl).
  fold q in Hc, Hw, Hn, Hl.
  assert (Hnz : num_windows q <> 0) by (rewrite Hw; discriminate).
  assert (H3 : (3 < Z.to_nat (nfft q))%nat) by (rewrite Hn; cbn; lia).
  destruct (X13_execute_reads_inside_psd q (replicate 4 f_nan) 3%nat
              Hc Hnz Hl H3) as (v & Hv & _ & Hout).
  repeat (split; [assumption|]). exists v. split; assumption.
Defined.

Lemma X14_output_is_a_permutation_witness :
  exists q0 : spgram (P := Reference.platform),
    let q := run q0 [op_push [Reference.unit_sample]] in
    spgram_create_advanced 4 2 1 Reference.half = Returned q0 /\
    constructed q /\ num_windows q <> 0 /\
    nfft q + nfft q / 2 <= UINT_MODULUS /\
    length (replicate 4 f_nan) = Z.to_nat (nfft q) /\
    0 <= 0 < nfft q /\
    shift_index (nfft q) ((0 + (nfft q - nfft q / 2)) mod nfft q) = 0.
Proof.
  destruct reference_fresh as [q0 Hq0]. exists q0. intros q.
  destruct (reference_after_one_sample q0 Hq0) as (Hc & Hw & Hn & Hl).
  fold q in Hc, Hw, Hn, Hl.
  assert (Hnz : num_windows q <> 0) by (rewrite Hw; discriminate).
  assert (Hr : nfft q + nfft q / 2 <= UINT_MODULUS)
    by (rewrite Hn; discriminate).
  assert (H0 : 0 <= 0 < nfft q) by (rewrite Hn; lia).
  destruct (X14_output_is_a_permutation q (replicate 4 f_nan) 0
              Hc Hnz Hr Hl H0) as (_ & Hs & _).
  repeat (split; [assumption|]). exact Hs.
Defined.

Lemma X15_zero_frequency_in_the_middle_witness :
  2 <= 5 /\ 5 + 5 / 2 <= UINT_MODULUS /\ 0 <= 3 < 5 /\
  shift_index 5 0 = 5 / 2 /\ shift_index 5 (5 - 5 / 2) = 0 /\
  shift_index 5 (shift_index 5 3) = (3 + (5 - 1)) mod 5.
Proof.
  assert (H2 : 2 <= 5) by lia.
  assert (Hr : 5 + 5 / 2 <= UINT_MODULUS) by discriminate.
  assert (H3 : 0 <= 3 < 5) by lia.
  destruct (X15_zero_frequency_in_the_middle 5 3 H2 Hr H3)
    as (Ha & Hb & _ & Hodd).
  repeat (split; [assumption|]). exact (Hodd eq_refl).
Defined.

Lemma X16_execute_writes_n_cells_witness :
  exists q0 : spgram (P := Reference.platform),
    spgram_create_advanced 4 2 1 Reference.half = Returned q0 /\
    (Z.to_nat (nfft q0) <= 5)%nat /\
    snd (spgram_execute q0 (replicate 6 f_one)) !! 5%nat
    = replicate 6 f_one !! 5%nat.
Proof.
  destruct reference_fresh as [q0 Hq0]. exists q0.
  destruct (create_advanced_returned _ _ _ _ _ Hq0) as (_ & En & _).
  assert (H5 : (Z.to_nat (nfft q0) <= 5)%nat) by (rewrite En; cbn; lia).
  split; [exact Hq0|]. split; [exact H5|].
  exact (proj2 (X16_execute_writes_n_cells q0 (replicate 6 f_one) 5%nat) H5).
Defined.

Lemma reference_second_stride_alpha_one :
  Reference.second_stride_alpha_one
  = (Some (S754_finite false 10297184 (-28)),
     Some (S754_finite false 10297184 (-27),
           S754_finite false 10297184 (-28)),
     Some (S754_finite false 11512602 (-27)), 1, 0).
Proof. vm_compute. reflexivity. Qed.

Lemma X17_alpha_one_keeps_no_history_witness :
  exists q0 : spgram (P := Reference.platform),
    let q := run q0 [op_push [Reference.unit_sample]] in
    let out := (S754_finite false 10297184 (-27),
                S754_finite false 10297184 (-28)) in
    spgram_create_advanced 4 2 1 f_one = Returned q0 /\
    constructed q /\ alpha q = f_one /\ index q + 1 = delay q /\
    num_windows q <> 0 /\
    psd q !! 0%nat = Some (S754_finite false 10297184 (-28)) /\
    X (spgram_push_sample q (f_one, f_one)) !! 0%nat = Some out /\
    is_binary32 (@cabsf Reference.platform out) /\
    nan_or_nonneg (@cabsf Reference.platform out) /\
    psd (spgram_push_sample q (f_one, f_one)) !! 0%nat
    = Some (@cabsf Reference.platform out).
Proof.
  destruct reference_alpha_one as [q0 Hq0]. exists q0. intros q out.
  assert (Hc : constructed q)
    by (apply (constructed_by _ 4 2 1 f_one); try lia; exact Hq0).
  pose proof reference_second_stride_alpha_one as Hrun.
  unfold Reference.second_stride_alpha_one in Hrun. rewrite Hq0 in Hrun.
  change (spgram_push q0 [Reference.unit_sample]) with q in Hrun.
  cbv zeta in Hrun. injection Hrun as Hold Hout _ Hw Hi.
  destruct (create_advanced_returned _ _ _ _ _ Hq0)
    as (_ & _ & _ & Ed & Ea & _).
  destruct (push_setup q0 [Reference.unit_sample])
    as (_ & _ & Ed' & Ea' & _).
  assert (Ha : alpha q = f_one) by (unfold q; cbn [run fold_left
                                     apply_operation]; congruence).
  assert (Hfire : index q + 1 = delay q).
  { rewrite Hi. unfold q. cbn [run fold_left apply_operation].
    rewrite Ed', Ed. reflexivity. }
  assert (Hnz : num_windows q <> 0) by (rewrite Hw; discriminate).
  assert (Hv : is_binary32 (@cabsf Reference.platform out))
    by reflexivity.
  assert (Hn : nan_or_nonneg (@cabsf Reference.platform out))
    by apply reference_cabsf_nonneg.
  repeat (split; [assumption|]).
  exact (X17_alpha_one_keeps_no_history q (f_one, f_one) 0%nat _ out
           Hc Ha Hfire Hnz Hold Hout Hv Hn).
Defined.
